(** * kittenclicker: the player-count server ([server.js])

    A shallow embedding of the Express server of the clicker game: the
    in-memory [userData] map, its JSON file, the three request handlers
    and the bootstrap, followed by the properties its specification
    states about them.

    JavaScript data is modelled as follows.
    - Every value the program stores comes out of [JSON.parse] (request
      bodies, the data file) or [Date.now()], so stored values are JSON
      trees, plus [undefined] for a missing property or array slot.
    - A number is an IEEE 754 double: sign, mantissa and exponent as in
      the specification of binary floats of the Standard Library, whose
      rounding addition is the [+] of the program.  The two infinities
      are kept, since [JSON.parse] yields them for literals such as
      [1e999] and [JSON.stringify] writes them as [null]; [NaN] only
      arises in the running sums.  Zero has no sign: the program never
      tells [-0] from [0] (it only adds, tests truth and writes JSON).
    - A [Map] and an object are association lists in insertion order
      with at most one binding per key (the order in which an object
      enumerates integer-like keys is not modelled: nothing below
      depends on it).
    - A JSON text is represented by what [JSON.parse] makes of it. *)

From Stdlib Require Import ZArith List String Ascii Bool Lia DecimalString.
From Stdlib Require Import Floats.SpecFloat.
Import ListNotations.

#[local] Set Warnings "-register-all,-abstract-large-number".
#[local] Open Scope string_scope.
#[local] Open Scope list_scope.
#[local] Open Scope Z_scope.

(** ** JavaScript values *)

Module JS.

(** Numbers that a JSON literal can denote: the doubles but [NaN].
    [Finite s m e] is the double of value [m * 2^e], negative when [s];
    the doubles [JSON.parse] makes are the canonical ones (a mantissa of
    53 bits, or less at the smallest exponent). *)
Inductive jnum : Type :=
| Zero
| Finite (negative : bool) (mantissa : positive) (exponent : Z)
| Inf (positive : bool).

(** Numbers that arithmetic can produce. *)
Inductive number : Type :=
| Num (n : jnum)
| NaN.

(** Binary64: 53 bits of mantissa, infinities at exponent 1024. *)
Definition prec : Z := 53.
Definition emax : Z := 1024.

Definition float_of (n : number) : spec_float :=
  match n with
  | Num Zero => S754_zero false
  | Num (Finite s m e) => S754_finite s m e
  | Num (Inf p) => S754_infinity (negb p)
  | NaN => S754_nan
  end.

Definition number_of (x : spec_float) : number :=
  match x with
  | S754_zero _ => Num Zero
  | S754_finite s m e => Num (Finite s m e)
  | S754_infinity s => Num (Inf (negb s))
  | S754_nan => NaN
  end.

(** The double nearest to the integer [z] (ties to even): what an
    integer literal denotes, and what [Date.now()] returns.  Rounding
    an integer never gives [NaN]; that branch is there for totality. *)
Definition Fin (z : Z) : jnum :=
  match number_of (binary_normalize prec emax z 0 false) with
  | Num n => n
  | NaN => Zero
  end.

(** [a + b] on numbers: IEEE addition, rounding to nearest even. *)
Definition plus (a b : number) : number :=
  number_of (SFadd prec emax (float_of a) (float_of b)).

Inductive json : Type :=
| JNull
| JBool (b : bool)
| JNum (n : jnum)
| JStr (s : string)
| JArr (items : list json)
| JObj (props : list (string * json)).

(** A value is a JSON tree or [undefined], which is [None]. *)
Definition value : Type := option json.

Definition object : Type := list (string * json).

(** [typeof v] *)
Definition typeof (v : value) : string :=
  match v with
  | None => "undefined"
  | Some (JBool _) => "boolean"
  | Some (JNum _) => "number"
  | Some (JStr _) => "string"
  | Some JNull | Some (JArr _) | Some (JObj _) => "object"
  end.

(** ToBoolean: what [!v] and [v && ...] test. *)
Definition truthy (v : value) : bool :=
  match v with
  | None | Some JNull => false
  | Some (JBool b) => b
  | Some (JNum Zero) => false
  | Some (JNum (Finite _ _ _)) | Some (JNum (Inf _)) => true
  | Some (JStr s) => negb (String.eqb s "")
  | Some (JArr _) | Some (JObj _) => true
  end.

(** ToNumber of a value already known to be a number. *)
Definition as_number (v : value) : number :=
  match v with
  | Some (JNum n) => Num n
  | _ => NaN
  end.

Definition jnum_eqb (a b : jnum) : bool :=
  match a, b with
  | Zero, Zero => true
  | Finite s m e, Finite s' m' e' =>
      Bool.eqb s s' && Pos.eqb m m' && Z.eqb e e'
  | Inf p, Inf p' => Bool.eqb p p'
  | _, _ => false
  end.

(** SameValueZero, the key comparison of [Map].  Arrays and objects
    are compared by identity, and every array or object of a parsed
    tree is a fresh one, so two of them are never the same key. *)
Definition same_value_zero (a b : value) : bool :=
  match a, b with
  | None, None => true
  | Some JNull, Some JNull => true
  | Some (JBool x), Some (JBool y) => Bool.eqb x y
  | Some (JNum x), Some (JNum y) => jnum_eqb x y
  | Some (JStr x), Some (JStr y) => String.eqb x y
  | _, _ => false
  end.

(** *** Objects *)

(** [o[k]] on own properties. *)
Fixpoint obj_get (k : string) (o : object) : value :=
  match o with
  | [] => None
  | (k', v) :: rest => if String.eqb k' k then Some v else obj_get k rest
  end.

(** [o[k] = v]: an existing property keeps its place. *)
Fixpoint obj_set (k : string) (v : json) (o : object) : object :=
  match o with
  | [] => [(k, v)]
  | (k', v') :: rest =>
      if String.eqb k' k then (k', v) :: rest
      else (k', v') :: obj_set k v rest
  end.

(** [{ ...init, ...src }]: the properties of [src] are copied in
    order onto the properties already written. *)
Definition spread (src init : object) : object :=
  fold_left (fun acc kv => obj_set (fst kv) (snd kv) acc) src init.

(** The rest of a destructuring pattern: every own property but the
    named ones. *)
Definition omit (names : list string) (o : object) : object :=
  filter (fun kv => negb (existsb (String.eqb (fst kv)) names)) o.

Definition index_key (i : nat) : string :=
  NilEmpty.string_of_uint (Nat.to_uint i).

Definition chars (s : string) : list json :=
  map (fun c => JStr (String c EmptyString)) (list_ascii_of_string s).

Definition indexed (items : list json) : object :=
  combine (map index_key (seq 0 (List.length items))) items.

(** Own enumerable properties of a non-null value ([length] of arrays
    and strings is not enumerable). *)
Definition own_props (j : json) : object :=
  match j with
  | JObj o => o
  | JArr items => indexed items
  | JStr s => indexed (chars s)
  | JNull | JBool _ | JNum _ => []
  end.

(** *** JSON texts *)

(** A text, seen through [JSON.parse]: either it has a syntax error or
    it denotes a tree. *)
Inductive text : Type :=
| Malformed
| Denotes (j : json).

(** What [JSON.stringify] writes for a tree: an infinite number is
    written [null]. *)
Fixpoint written (j : json) : json :=
  match j with
  | JNum (Inf _) => JNull
  | JArr items => JArr (map written items)
  | JObj o => JObj (map (fun kv => (fst kv, written (snd kv))) o)
  | JNull | JBool _ | JNum Zero | JNum (Finite _ _ _) | JStr _ => j
  end.

(** In an array, [undefined] is written [null]. *)
Definition written_item (v : value) : json :=
  match v with
  | None => JNull
  | Some j => written j
  end.

(** [JSON.stringify({ current, total })]-style numbers. *)
Definition written_number (n : number) : json :=
  match n with
  | Num Zero => JNum Zero
  | Num (Finite s m e) => JNum (Finite s m e)
  | Num (Inf _) | NaN => JNull
  end.

End JS.

(** ** Exceptions and state *)

Module Eff.

Inductive exn : Type :=
| TypeError
| SyntaxError
| RangeError
| SystemError.

Inductive outcome (A : Type) : Type :=
| Returned (a : A)
| Thrown (e : exn).
Arguments Returned {A} a.
Arguments Thrown {A} e.

(** A computation over a mutable state [S]: what it did to the state
    stays done when it throws. *)
Definition Js (S A : Type) : Type := S -> S * outcome A.

Definition ret {S A} (a : A) : Js S A := fun s => (s, Returned a).

Definition throw {S A} (e : exn) : Js S A := fun s => (s, Thrown e).

Definition bind {S A B} (m : Js S A) (k : A -> Js S B) : Js S B :=
  fun s =>
    match m s with
    | (s', Returned a) => k a s'
    | (s', Thrown e) => (s', Thrown e)
    end.

(** [try { m } catch (error) { handler }] *)
Definition try_catch {S A} (m : Js S A) (handler : exn -> Js S A) : Js S A :=
  fun s =>
    match m s with
    | (s', Returned a) => (s', Returned a)
    | (s', Thrown e) => handler e s'
    end.

Definition lift {S A} (o : outcome A) : Js S A := fun s => (s, o).

Definition gets {S A} (f : S -> A) : Js S A := fun s => (s, Returned (f s)).

Definition modify {S} (f : S -> S) : Js S unit := fun s => (f s, Returned tt).

(** [items.forEach(callback)] *)
Fixpoint for_each {S A} (items : list A) (callback : A -> Js S unit) : Js S unit :=
  match items with
  | [] => ret tt
  | x :: rest => bind (callback x) (fun _ => for_each rest callback)
  end.

Module Notations.
Notation "x <- m ;; k" := (bind m (fun x => k))
    (at level 61, m at next level, right associativity).
Notation "m ;; k" := (bind m (fun _ => k))
    (at level 61, right associativity).
End Notations.

End Eff.

(** ** The server *)

Module Server.
Import JS Eff Eff.Notations.

(** *** The [Map] holding the user records *)

Definition Map : Type := list (value * value).

(** [m.set(k, v)]: an existing key keeps its place, a new one goes last. *)
Fixpoint Map_set (k v : value) (m : Map) : Map :=
  match m with
  | [] => [(k, v)]
  | (k', v') :: rest =>
      if same_value_zero k' k then (k', v) :: rest
      else (k', v') :: Map_set k v rest
  end.

(** [m.get(k)], with [None] when the key is absent; server.js never
    calls it, the properties below use it to say what the map holds. *)
Fixpoint Map_get (k : value) (m : Map) : option value :=
  match m with
  | [] => None
  | (k', v) :: rest => if same_value_zero k' k then Some v else Map_get k rest
  end.

(** *** The process and its surroundings *)

Record Disk : Type := {
  data_dir : bool;                 (* DATA_DIR exists *)
  user_data_file : option text     (* USER_DATA_FILE, when it exists *)
}.

Record World : Type := {
  userData : Map;
  disk : Disk;
  console : list string;
  listening : option string
}.

(** What a run of a handler gets from outside: the clock, whether the
    file system refuses its calls, and the [PORT] variable. *)
Record Env : Type := {
  Date_now : Z;
  fs_fault : bool;
  env_PORT : option string
}.

Definition set_userData (f : Map -> Map) (w : World) : World :=
  {| userData := f (userData w); disk := disk w;
     console := console w; listening := listening w |}.

Definition set_disk (f : Disk -> Disk) (w : World) : World :=
  {| userData := userData w; disk := f (disk w);
     console := console w; listening := listening w |}.

Definition print (line : string) (w : World) : World :=
  {| userData := userData w; disk := disk w;
     console := console w ++ [line]; listening := listening w |}.

Definition listen (port : string) (w : World) : World :=
  {| userData := userData w; disk := disk w;
     console := console w; listening := Some port |}.

Definition console_log (line : string) : Js World unit := modify (print line).
Definition console_error (line : string) : Js World unit := modify (print line).

(** [fs.mkdir(DATA_DIR, { recursive: true })] *)
Definition fs_mkdir (env : Env) : Js World unit :=
  if fs_fault env then throw SystemError
  else modify (set_disk (fun d =>
         {| data_dir := true; user_data_file := user_data_file d |})).

(** [fs.writeFile(USER_DATA_FILE, data)]: the file is replaced, or the
    call fails and the file is as it was. *)
Definition fs_writeFile (env : Env) (data : text) : Js World unit :=
  d <- gets disk ;;
  if fs_fault env || negb (data_dir d) then throw SystemError
  else modify (set_disk (fun d =>
         {| data_dir := data_dir d; user_data_file := Some data |})).

(** [fs.readFile(USER_DATA_FILE, 'utf8')] *)
Definition fs_readFile (env : Env) : Js World text :=
  d <- gets disk ;;
  if fs_fault env then throw SystemError
  else match user_data_file d with
       | None => throw SystemError
       | Some data => ret data
       end.

(** [JSON.stringify([...userData.entries()], null, 2)] *)
Definition JSON_stringify_entries (m : Map) : text :=
  Denotes (JArr (map (fun kv => JArr [written_item (fst kv); written_item (snd kv)]) m)).

(** [JSON.parse(data)] *)
Definition JSON_parse (data : text) : outcome json :=
  match data with
  | Malformed => Thrown SyntaxError
  | Denotes j => Returned j
  end.

(** [user.playerCount]: reading a property of [null] or [undefined]
    throws; no prototype of a JSON value has a property of this name,
    so the own properties decide. *)
Definition get_playerCount (user : value) : outcome value :=
  match user with
  | None | Some JNull => Thrown TypeError
  | Some j => Returned (obj_get "playerCount" (own_props j))
  end.

(** The parameter pattern [[id, user]]: arrays and strings are
    iterable, nothing else that a JSON text denotes is. *)
Definition pair_pattern (entry : json) : outcome (value * value) :=
  match entry with
  | JArr items => Returned (nth_error items 0, nth_error items 1)
  | JStr s => Returned (nth_error (chars s) 0, nth_error (chars s) 1)
  | JNull | JBool _ | JNum _ | JObj _ => Thrown TypeError
  end.

(** [parsed.forEach(callback)]: only an array has [forEach]. *)
Definition array_forEach {S} (parsed : json) (callback : json -> Js S unit) : Js S unit :=
  match parsed with
  | JArr items => for_each items callback
  | _ => throw TypeError
  end.

(** The pattern [{ userId, playerCount, ...otherData }]. *)
Definition body_pattern (body : value) : outcome (value * value * object) :=
  match body with
  | None | Some JNull => Thrown TypeError
  | Some j =>
      Returned (obj_get "userId" (own_props j),
                obj_get "playerCount" (own_props j),
                omit ["userId"; "playerCount"] (own_props j))
  end.

(** *** Responses *)

Inductive reply : Type :=
| ErrorReply (error : string)
| SavedReply (success : bool) (message : string)
| CountsReply (current total : number).

Record response : Type := { status : Z; body : reply }.

(** [res.json(r)] and [res.status(code).json(r)]: the response keeps
    the object handed to Express; [sent] is the body the client gets. *)
Definition res_json (r : reply) : response := {| status := 200; body := r |}.
Definition res_status_json (code : Z) (r : reply) : response :=
  {| status := code; body := r |}.

(** [JSON.stringify(r)], which Express sends as the body: a total that
    is infinite or [NaN] arrives as [null]. *)
Definition sent (r : reply) : json :=
  match r with
  | ErrorReply error => JObj [("error", JStr error)]
  | SavedReply success message =>
      JObj [("success", JBool success); ("message", JStr message)]
  | CountsReply current total =>
      JObj [("current", written_number current);
            ("total", written_number total)]
  end.

(** *** server.js, lines 21-50 *)

Definition ensureDataDir (env : Env) : Js World unit :=
  try_catch
    (fs_mkdir env)
    (fun error => console_error "Error creating data directory:").

Definition saveUserData (env : Env) : Js World unit :=
  try_catch
    (m <- gets userData ;;
     fs_writeFile env (JSON_stringify_entries m))
    (fun error => console_error "Error saving user data:").

(** [([id, user]) => userData.set(id, user)] *)
Definition load_entry (entry : json) : Js World unit :=
  ids <- lift (pair_pattern entry) ;;
  modify (set_userData (Map_set (fst ids) (snd ids))).

Definition loadUserData (env : Env) : Js World unit :=
  try_catch
    (data <- fs_readFile env ;;
     parsed <- lift (JSON_parse data) ;;
     modify (set_userData (fun _ => [])) ;;
     array_forEach parsed load_entry ;;
     m <- gets userData ;;
     console_log ("Loaded " ++ index_key (List.length m) ++ " users from file"))
    (fun error => console_log "No existing user data file found, starting fresh").

(** *** POST /userlist (lines 53-73) *)

(** [typeof playerCount === 'number' ? playerCount : 0] *)
Definition count_or_zero (playerCount : value) : json :=
  match playerCount with
  | Some j => if String.eqb (typeof playerCount) "number" then j else JNum (Fin 0)
  | None => JNum (Fin 0)
  end.

(** [{ playerCount: ..., lastUpdated: Date.now(), ...otherData }] *)
Definition new_record (env : Env) (playerCount : value) (otherData : object) : json :=
  JObj (spread otherData
          [("playerCount", count_or_zero playerCount);
           ("lastUpdated", JNum (Fin (Date_now env)))]).

Definition post_userlist (env : Env) (req_body : value) : Js World response :=
  try_catch
    (fields <- lift (body_pattern req_body) ;;
     let '(userId, playerCount, otherData) := fields in
     if negb (truthy userId) || negb (String.eqb (typeof userId) "string") then
       ret (res_status_json 400 (ErrorReply "Missing or invalid userId"))
     else
       modify (set_userData
                 (Map_set userId (Some (new_record env playerCount otherData)))) ;;
       saveUserData env ;;
       ret (res_json (SavedReply true "Data saved successfully")))
    (fun error =>
       console_error "Error saving user data:" ;;
       ret (res_status_json 500 (ErrorReply "Failed to save data"))).

(** *** GET /player-count (lines 76-88) *)

(** The loop body shared by the two counting handlers; the state is the
    pair of locals [(current, total)]. *)
Definition add_user (user : value) : Js (number * number) unit :=
  playerCount <- lift (get_playerCount user) ;;
  if truthy playerCount && String.eqb (typeof playerCount) "number" then
    modify (fun locals : number * number =>
              (plus (fst locals) (as_number playerCount),
               plus (snd locals) (as_number playerCount)))
  else ret tt.

(** [let current = 0; let total = 0; userData.forEach(...)] *)
Definition count_players (m : Map) : outcome (number * number) :=
  match for_each (map snd m) add_user (Num (Fin 0), Num (Fin 0)) with
  | (locals, Returned _) => Returned locals
  | (_, Thrown e) => Thrown e
  end.

Definition get_player_count : Js World response :=
  m <- gets userData ;;
  locals <- lift (count_players m) ;;
  ret (res_json (CountsReply (fst locals) (snd locals))).

(** *** Bootstrap (lines 5, 136-145) *)

(** [process.env.PORT || 3000] *)
Definition PORT (env : Env) : string :=
  match env_PORT env with
  | Some p => if String.eqb p "" then "3000" else p
  | None => "3000"
  end.

(** What [app.listen] meets, which is up to Node and the machine: the
    port is bound; or [listen] throws at once (a port number out of
    range is a [RangeError]); or the bind fails later (the port is in
    use), an error event that ends the process before the callback. *)
Inductive net : Type :=
| Binds
| Throws
| Fails.

(** [app.listen(PORT, () => console.log(...))] *)
Definition app_listen (n : net) (port : string) : Js World unit :=
  match n with
  | Binds =>
      modify (listen port) ;;
      console_log ("Server running on port " ++ port)
  | Throws => throw RangeError
  | Fails => ret tt
  end.

Definition init_on (n : net) (env : Env) : Js World unit :=
  ensureDataDir env ;;
  loadUserData env ;;
  app_listen n (PORT env).

(** The bootstrap on a machine where the port can be bound. *)
Definition init (env : Env) : Js World unit := init_on Binds env.

(** A process started on a disk: line 18 makes the map empty. *)
Definition fresh_process (d : Disk) : World :=
  {| userData := []; disk := d; console := []; listening := None |}.

End Server.

(** ** Vocabulary of the specification *)

Module Spec.
Import JS Eff Server.

Definition is_number (v : value) : bool :=
  match v with
  | Some (JNum _) => true
  | _ => false
  end.

Definition is_string (v : value) : bool :=
  match v with
  | Some (JStr _) => true
  | _ => false
  end.

Definition is_object (v : value) : bool :=
  match v with
  | Some (JObj _) => true
  | _ => false
  end.

(** The [playerCount] field of a record, [undefined] when there is none. *)
Definition playerCount_of (user : value) : value :=
  match user with
  | Some j => obj_get "playerCount" (own_props j)
  | None => None
  end.

(** The [lastUpdated] field of a record. *)
Definition lastUpdated_of (user : value) : value :=
  match user with
  | Some j => obj_get "lastUpdated" (own_props j)
  | None => None
  end.

(** The aggregate in the words of the specification: the sum of
    [playerCount] across all records where that field is a number. *)
Definition sum_of_counts (m : Map) : number :=
  fold_left plus
    (map as_number (filter is_number (map (fun kv => playerCount_of (snd kv)) m)))
    (Num (Fin 0)).

(** Every record can be asked for a property (it is neither [null] nor
    [undefined]); records written by POST /userlist are objects. *)
Definition readable (m : Map) : bool :=
  forallb (fun kv => match snd kv with
                     | None | Some JNull => false
                     | Some _ => true
                     end) m.

(** How many entries the map holds under key [k]. *)
Definition occurrences (k : value) (m : Map) : nat :=
  List.length (filter (fun kv => same_value_zero (fst kv) k) m).

(** No key is held twice: true of every [Map]. *)
Fixpoint distinct_keys (m : Map) : bool :=
  match m with
  | [] => true
  | (k, _) :: rest =>
      forallb (fun kv => negb (same_value_zero (fst kv) k)) rest
      && distinct_keys rest
  end.

(** A store of user records: string ids, each held once, mapped to
    objects. *)
Definition user_store (m : Map) : bool :=
  distinct_keys m
  && forallb (fun kv => is_string (fst kv) && is_object (snd kv)) m.

(** No record has an infinite [playerCount]. *)
Definition finite_counts (m : Map) : bool :=
  forallb (fun kv => match playerCount_of (snd kv) with
                     | Some (JNum (Inf _)) => false
                     | _ => true
                     end) m.

Definition nonneg_integer (v : value) : Prop :=
  exists z, v = Some (JNum (Fin z)) /\ 0 <= z.

(** The submitted [playerCount] when it is a number, 0 otherwise. *)
Definition submitted_count (playerCount : value) : json :=
  match playerCount with
  | Some (JNum n) => JNum n
  | _ => JNum (Fin 0)
  end.

(** The request is one that POST /userlist accepts for user [id]. *)
Definition accepted (req_body : value) (id : string)
    (playerCount : value) (otherData : object) : Prop :=
  body_pattern req_body = Returned (Some (JStr id), playerCount, otherData)
  /\ id <> "".

(** A map as it is read back from the text [saveUserData] writes for
    it, entry by entry. *)
Definition reread (m : Map) : Map :=
  map (fun kv => (Some (written_item (fst kv)), Some (written_item (snd kv)))) m.

(** No number in the tree is infinite: [JSON.stringify] then writes the
    tree as it is. *)
Fixpoint finite_json (j : json) : bool :=
  match j with
  | JNum (Inf _) => false
  | JArr items => forallb finite_json items
  | JObj o => forallb (fun kv => finite_json (snd kv)) o
  | JNull | JBool _ | JNum Zero | JNum (Finite _ _ _) | JStr _ => true
  end.

(** Every record of the map is free of infinite numbers. *)
Definition finite_store (m : Map) : bool :=
  forallb (fun kv => match snd kv with
                     | Some j => finite_json j
                     | None => true
                     end) m.

(** No property name occurs twice, as in every object [JSON.parse]
    makes. *)
Fixpoint unique_names (o : object) : bool :=
  match o with
  | [] => true
  | (k, _) :: rest =>
      forallb (fun kv => negb (String.eqb (fst kv) k)) rest && unique_names rest
  end.

(** Key [k] is held by the map. *)
Definition Map_has (k : value) (m : Map) : bool :=
  existsb (fun kv => same_value_zero (fst kv) k) m.

(** A process restarted on the disk that [w] leaves behind, on a
    machine where the port can be bound. *)
Definition restart (env : Env) (w : World) : World :=
  fst (init env (fresh_process (disk w))).

End Spec.

(** ** GET /player-count-stream and the event loop (lines 91-123)

    After the response head (which is not modelled) the handler writes
    one chunk, starts a timer and leaves a [close] listener behind; the
    timers and the listener are run by the event loop.  Time is counted
    in milliseconds and a timer fires at its due time (delays of the
    loop are not modelled). *)

Module Stream.
Import JS Eff Eff.Notations Server.

(** A connection, named by the order of arrival. *)
Definition conn : Type := nat.

(** A timer made by [setInterval] in the handler run for [owner]. *)
Record Interval : Type := { owner : conn; period : Z; due : Z }.

(** One [res.write('data: ' + json + '\n\n')]. *)
Record Chunk : Type := { to : conn; sent_at : Z; data : json }.

Record Node : Type := {
  world : World;
  clock : Z;
  intervals : list Interval;
  wire : list Chunk;
  alive : bool
}.

Definition res_write (c : conn) (payload : json) (n : Node) : Node :=
  {| world := world n; clock := clock n; intervals := intervals n;
     wire := wire n ++ [{| to := c; sent_at := clock n; data := payload |}];
     alive := alive n |}.

Definition setInterval (c : conn) (ms : Z) (n : Node) : Node :=
  {| world := world n; clock := clock n;
     intervals := intervals n ++ [{| owner := c; period := ms; due := clock n + ms |}];
     wire := wire n; alive := alive n |}.

(** The [close] listener of connection [c]: [clearInterval(interval)]. *)
Definition clearInterval (c : conn) (n : Node) : Node :=
  {| world := world n; clock := clock n;
     intervals := filter (fun i => negb (Nat.eqb (owner i) c)) (intervals n);
     wire := wire n; alive := alive n |}.

Definition set_intervals (l : list Interval) (n : Node) : Node :=
  {| world := world n; clock := clock n; intervals := l;
     wire := wire n; alive := alive n |}.

Definition set_world (w : World) (n : Node) : Node :=
  {| world := w; clock := clock n; intervals := intervals n;
     wire := wire n; alive := alive n |}.

Definition advance (ms : Z) (n : Node) : Node :=
  {| world := world n; clock := clock n + ms; intervals := intervals n;
     wire := wire n; alive := alive n |}.

Definition exit (n : Node) : Node :=
  {| world := world n; clock := clock n; intervals := intervals n;
     wire := wire n; alive := false |}.

(** [JSON.stringify({ current, total })] *)
Definition counts_json (locals : number * number) : json :=
  JObj [("current", written_number (fst locals));
        ("total", written_number (snd locals))].

Definition sendCounts (c : conn) : Js Node unit :=
  m <- gets (fun n => userData (world n)) ;;
  locals <- lift (count_players m) ;;
  modify (res_write c (counts_json locals)).

Definition get_player_count_stream (c : conn) : Js Node unit :=
  sendCounts c ;;
  modify (setInterval c 5000).

(** A timer that is due calls back and is due again one period later. *)
Definition fire (i : Interval) : Js Node Interval :=
  now <- gets clock ;;
  if due i <=? now then
    sendCounts (owner i) ;;
    ret {| owner := owner i; period := period i; due := due i + period i |}
  else ret i.

Fixpoint fire_all (timers : list Interval) : Js Node (list Interval) :=
  match timers with
  | [] => ret []
  | i :: rest =>
      i' <- fire i ;;
      rest' <- fire_all rest ;;
      ret (i' :: rest')
  end.

(** One millisecond passes. *)
Definition elapse : Js Node unit :=
  modify (advance 1) ;;
  timers <- gets intervals ;;
  timers' <- fire_all timers ;;
  modify (set_intervals timers').

Inductive event : Type :=
| Connect (c : conn)                       (* GET /player-count-stream *)
| Close (c : conn)                         (* the client of [c] goes away *)
| Elapse                                   (* a millisecond passes *)
| Post (fault : bool) (req_body : value).  (* POST /userlist *)

(** One turn of the loop.  Express answers for a handler that throws;
    an exception out of a timer callback ends the process. *)
Definition step (e : event) (n : Node) : Node :=
  if alive n then
    match e with
    | Connect c => fst (get_player_count_stream c n)
    | Close c => clearInterval c n
    | Elapse =>
        match elapse n with
        | (n', Returned _) => n'
        | (n', Thrown _) => exit n'
        end
    | Post fault req_body =>
        let env := {| Date_now := clock n; fs_fault := fault; env_PORT := None |} in
        set_world (fst (post_userlist env req_body (world n))) n
    end
  else n.

Definition run (events : list event) (n : Node) : Node :=
  fold_left (fun n e => step e n) events n.

(** What has been written to connection [c], oldest first. *)
Definition heard (c : conn) (n : Node) : list Chunk :=
  filter (fun k => Nat.eqb (to k) c) (wire n).

(** The timers running for connection [c]. *)
Definition ticking (c : conn) (n : Node) : list Interval :=
  filter (fun i => Nat.eqb (owner i) c) (intervals n).

(** A timer after the loop has looked at it at time [now]. *)
Definition looked_at (now : Z) (i : Interval) : Interval :=
  if due i <=? now
  then {| owner := owner i; period := period i; due := due i + period i |}
  else i.

(** The totals as [sendCounts] writes them when every record can be
    read. *)
Definition totals_json (m : Map) : json :=
  counts_json (Spec.sum_of_counts m, Spec.sum_of_counts m).

(** Connection [c] was opened at time [t0], when the times in [base]
    had been heard on it, and is still open: the process runs, its one
    timer is due at the next multiple of five seconds after [t0], and a
    chunk was written at [t0] and at every multiple since. *)
Definition open_since (c : conn) (t0 : Z) (base : list Z) (n : Node) : Prop :=
  alive n = true
  /\ Spec.readable (userData (world n)) = true
  /\ exists k : nat,
       ticking c n = [{| owner := c; period := 5000;
                         due := t0 + 5000 * (Z.of_nat k + 1) |}]
       /\ t0 + 5000 * Z.of_nat k <= clock n < t0 + 5000 * (Z.of_nat k + 1)
       /\ map sent_at (heard c n)
          = base ++ map (fun i => t0 + 5000 * Z.of_nat i) (seq 0 (S k)).

(** No timer runs for connection [c]. *)
Definition timerless (c : conn) (n : Node) : Prop :=
  Spec.readable (userData (world n)) = true /\ ticking c n = [].

Definition mentions (c : conn) (e : event) : bool :=
  match e with
  | Connect c' | Close c' => Nat.eqb c' c
  | Elapse | Post _ _ => false
  end.

Definition opens (c : conn) (e : event) : bool :=
  match e with
  | Connect c' => Nat.eqb c' c
  | Close _ | Elapse | Post _ _ => false
  end.

End Stream.

(** ** Sample data *)

Module Samples.
Import JS Eff Server.

Definition empty_disk : Disk :=
  {| data_dir := true; user_data_file := None |}.

Definition disk_with (j : json) : Disk :=
  {| data_dir := true; user_data_file := Some (Denotes j) |}.

Definition at_time (t : Z) : Env :=
  {| Date_now := t; fs_fault := false; env_PORT := None |}.

(** A run during which the file system refuses every call. *)
Definition disk_failing (t : Z) : Env :=
  {| Date_now := t; fs_fault := true; env_PORT := None |}.

(** The body [{ "userId": id, "playerCount": n, ...extra }]. *)
Definition report (id : string) (n : jnum) (extra : object) : value :=
  Some (JObj (("userId", JStr id) :: ("playerCount", JNum n) :: extra)).

(** The double [1e308]. *)
Definition ten_to_308 : jnum := Finite false 5010420900022432 971.

(** A process that has just started on an empty disk and received the
    reports [a: 3] and [b: 5]. *)
Definition two_users : World :=
  fst (post_userlist (at_time 1700000005000) (report "b" (Fin 5) [])
         (fst (post_userlist (at_time 1700000000000) (report "a" (Fin 3) [])
                 (fresh_process empty_disk)))).

(** The event loop at time [t] with no stream open. *)
Definition idle_node (t : Z) (w : World) : Stream.Node :=
  {| Stream.world := w; Stream.clock := t; Stream.intervals := [];
     Stream.wire := []; Stream.alive := true |}.

(** Ten seconds in the life of a connection: five pass, a third user
    reports and a second client connects, five more pass. *)
Definition ten_seconds : list Stream.event :=
  repeat Stream.Elapse 5000
  ++ [Stream.Post false (report "c" (Fin 1) []); Stream.Connect 2%nat]
  ++ repeat Stream.Elapse 5000.

End Samples.

(** * Properties *)

Import JS Eff Eff.Notations Server Spec Stream Samples.

(** ** Objects and maps *)

Lemma obj_get_set_same (k : string) (v : json) (o : object) :
  obj_get k (obj_set k v o) = Some v.
Proof.
  induction o as [|[k' v'] rest IH]; simpl.
  - now rewrite String.eqb_refl.
  - destruct (String.eqb k' k) eqn:E; simpl; rewrite E; auto.
Qed.

Lemma obj_get_set_other (k k' : string) (v : json) (o : object) :
  k' <> k -> obj_get k (obj_set k' v o) = obj_get k o.
Proof.
  intros Hne. induction o as [|[k0 v0] rest IH]; simpl.
  - destruct (String.eqb_spec k' k); congruence.
  - destruct (String.eqb_spec k0 k') as [->|Hk0]; simpl.
    + destruct (String.eqb_spec k' k); congruence.
    + destruct (String.eqb_spec k0 k); auto.
Qed.

(** A key that the spread object lacks keeps the value written before. *)
Lemma obj_get_spread_absent (k : string) (src init : object) :
  obj_get k src = None -> obj_get k (spread src init) = obj_get k init.
Proof.
  unfold spread. revert init.
  induction src as [|[k' v'] rest IH]; intros init Habs; simpl in *; auto.
  destruct (String.eqb_spec k' k) as [->|Hne]; [discriminate|].
  rewrite IH by assumption. now apply obj_get_set_other.
Qed.

(** A key that the spread object has takes its value from it. *)
Lemma obj_get_spread_present (k : string) (src init : object) :
  obj_get k src <> None -> obj_get k (spread src init) <> None.
Proof.
  unfold spread. revert init.
  induction src as [|[k' v'] rest IH]; intros init Hin; simpl in *.
  - congruence.
  - destruct (obj_get k rest) eqn:Hrest.
    + apply IH. congruence.
    + fold (spread rest (obj_set k' v' init)).
      rewrite obj_get_spread_absent by assumption.
      destruct (String.eqb_spec k' k) as [->|Hne]; [|congruence].
      rewrite obj_get_set_same. discriminate.
Qed.

Lemma obj_get_omit_named (k : string) (names : list string) (o : object) :
  In k names -> obj_get k (omit names o) = None.
Proof.
  intros Hin. unfold omit.
  induction o as [|[k' v'] rest IH]; simpl; auto.
  destruct (existsb (String.eqb k') names) eqn:E; simpl; auto.
  destruct (String.eqb_spec k' k) as [->|Hne]; auto.
  exfalso. assert (existsb (String.eqb k) names = true) as Hex.
  { apply existsb_exists. exists k. split; auto. apply String.eqb_refl. }
  congruence.
Qed.

Lemma obj_get_omit_other (k : string) (names : list string) (o : object) :
  ~ In k names -> obj_get k (omit names o) = obj_get k o.
Proof.
  intros Hnin. unfold omit.
  induction o as [|[k' v'] rest IH]; simpl; auto.
  destruct (String.eqb_spec k' k) as [->|Hne].
  - assert (existsb (String.eqb k) names = false) as ->.
    { destruct (existsb (String.eqb k) names) eqn:E; auto.
      apply existsb_exists in E as [x [Hx Heq]].
      apply String.eqb_eq in Heq. subst. contradiction. }
    simpl. now rewrite String.eqb_refl.
  - destruct (existsb (String.eqb k') names); simpl; auto.
    destruct (String.eqb_spec k' k); congruence.
Qed.

Lemma same_value_zero_refl_string (s : string) :
  same_value_zero (Some (JStr s)) (Some (JStr s)) = true.
Proof. simpl. apply String.eqb_refl. Qed.

Lemma Map_get_set_same (id : string) (v : value) (m : Map) :
  Map_get (Some (JStr id)) (Map_set (Some (JStr id)) v m) = Some v.
Proof.
  induction m as [|[k' v'] rest IH].
  - simpl. now rewrite String.eqb_refl.
  - cbn [Map_set Map_get].
    destruct (same_value_zero k' (Some (JStr id))) eqn:E;
      cbn [Map_get]; rewrite E; auto.
Qed.

(** ** The submission handler *)

(** Runs the plumbing of a computation: binds, catches and the
    primitive state operations. *)
Ltac js_run :=
  cbv beta iota delta
    [try_catch bind ret throw lift gets modify console_log console_error].

(** [saveUserData] always returns, and leaves the map alone. *)
Lemma saveUserData_returns (env : Env) (w : World) :
  exists w', saveUserData env w = (w', Returned tt)
             /\ userData w' = userData w.
Proof.
  unfold saveUserData, fs_writeFile; js_run.
  destruct (fs_fault env || negb (data_dir (disk w))); simpl; eauto.
Qed.

(** When the write fails the file is as it was and the failure is only
    logged. *)
Lemma saveUserData_write_fails (env : Env) (w : World) :
  fs_fault env = true ->
  saveUserData env w = (print "Error saving user data:" w, Returned tt).
Proof.
  intros Hf.
  unfold saveUserData, fs_writeFile; js_run.
  rewrite Hf. reflexivity.
Qed.

Lemma saveUserData_writes (env : Env) (w : World) :
  fs_fault env = false -> data_dir (disk w) = true ->
  saveUserData env w =
    (set_disk (fun d => {| data_dir := data_dir d;
                           user_data_file := Some (JSON_stringify_entries (userData w)) |}) w,
     Returned tt).
Proof.
  intros Hf Hd.
  unfold saveUserData, fs_writeFile; js_run.
  rewrite Hf, Hd. reflexivity.
Qed.

(** A request whose [userId] is not a non-empty string is answered 400
    and nothing happens. *)
Lemma post_userlist_rejects (env : Env) (req_body userId playerCount : value)
    (otherData : object) (w : World) :
  body_pattern req_body = Returned (userId, playerCount, otherData) ->
  truthy userId && String.eqb (typeof userId) "string" = false ->
  post_userlist env req_body w =
    (w, Returned (res_status_json 400 (ErrorReply "Missing or invalid userId"))).
Proof.
  intros Hb Hbad.
  unfold post_userlist; js_run. rewrite Hb.
  replace (negb (truthy userId) || negb (String.eqb (typeof userId) "string"))
    with true.
  - reflexivity.
  - rewrite <- negb_andb, Hbad. reflexivity.
Qed.

(** An accepted request stores the new record, saves and answers 200. *)
Lemma post_userlist_accepts (env : Env) (req_body : value) (id : string)
    (playerCount : value) (otherData : object) (w : World) :
  accepted req_body id playerCount otherData ->
  post_userlist env req_body w =
    (fst (saveUserData env
            (set_userData
               (Map_set (Some (JStr id)) (Some (new_record env playerCount otherData))) w)),
     Returned (res_json (SavedReply true "Data saved successfully"))).
Proof.
  intros [Hb Hid].
  assert (String.eqb id "" = false) as Hne by now apply String.eqb_neq.
  unfold post_userlist; js_run. rewrite Hb.
  change (truthy (Some (JStr id))) with (negb (String.eqb id "")).
  change (String.eqb (typeof (Some (JStr id))) "string") with true.
  rewrite Hne. cbn [negb orb].
  destruct (saveUserData_returns env
              (set_userData (Map_set (Some (JStr id))
                               (Some (new_record env playerCount otherData))) w))
    as [w' [Hs _]].
  rewrite Hs. reflexivity.
Qed.

Lemma post_userlist_store (env : Env) (req_body : value) (id : string)
    (playerCount : value) (otherData : object) (w : World) :
  accepted req_body id playerCount otherData ->
  userData (fst (post_userlist env req_body w)) =
    Map_set (Some (JStr id)) (Some (new_record env playerCount otherData)) (userData w).
Proof.
  intros Hacc. rewrite (post_userlist_accepts env _ _ _ _ w Hacc). cbn [fst].
  destruct (saveUserData_returns env
              (set_userData (Map_set (Some (JStr id))
                               (Some (new_record env playerCount otherData))) w))
    as [w' [Hs Hu]].
  rewrite Hs. cbn [fst]. rewrite Hu. reflexivity.
Qed.

(** The rest pattern never carries [playerCount] or [userId]. *)
Lemma body_pattern_rest (req_body userId playerCount : value) (otherData : object) :
  body_pattern req_body = Returned (userId, playerCount, otherData) ->
  obj_get "playerCount" otherData = None /\ obj_get "userId" otherData = None.
Proof.
  unfold body_pattern. destruct req_body as [[]|]; intros H;
    try discriminate; injection H as _ _ <-;
    split; solve [reflexivity | apply obj_get_omit_named; simpl; auto].
Qed.

Lemma count_or_zero_submitted (playerCount : value) :
  count_or_zero playerCount = submitted_count playerCount.
Proof. destruct playerCount as [[]|]; reflexivity. Qed.

(** The stored [playerCount] is the checked one: the spread cannot
    replace it. *)
Lemma new_record_playerCount (env : Env) (req_body userId playerCount : value)
    (otherData : object) :
  body_pattern req_body = Returned (userId, playerCount, otherData) ->
  playerCount_of (Some (new_record env playerCount otherData))
  = Some (submitted_count playerCount).
Proof.
  intros Hb. destruct (body_pattern_rest _ _ _ _ Hb) as [Hpc _].
  unfold playerCount_of, new_record. cbn [own_props].
  rewrite obj_get_spread_absent by assumption.
  simpl. now rewrite count_or_zero_submitted.
Qed.

(** Without a [lastUpdated] key from the client, the stored one is the
    server's clock. *)
Lemma new_record_lastUpdated (env : Env) (playerCount : value) (otherData : object) :
  obj_get "lastUpdated" otherData = None ->
  lastUpdated_of (Some (new_record env playerCount otherData))
  = Some (JNum (Fin (Date_now env))).
Proof.
  intros Habs. unfold lastUpdated_of, new_record. cbn [own_props].
  rewrite obj_get_spread_absent by assumption. reflexivity.
Qed.

Lemma typeof_string (v : value) :
  String.eqb (typeof v) "string" = is_string v.
Proof. destruct v as [[]|]; reflexivity. Qed.

(** ** C1: who sets [lastUpdated] *)

(** C1 (fails on the code).  The claim: the stored [lastUpdated] is the
    server's clock even when the client sends a [lastUpdated] field.
    The code spreads the client's fields after writing the clock, so a
    client field of that name replaces it: the request
    [{ userId: "a", playerCount: 3, lastUpdated: "never" }] handled at
    time 1700000000000 is accepted and stores [lastUpdated: "never"]. *)
Theorem C1_client_lastUpdated_replaces_clock :
  let req := report "a" (Fin 3) [("lastUpdated", JStr "never")] in
  let run := post_userlist (at_time 1700000000000) req (fresh_process empty_disk) in
  snd run = Returned (res_json (SavedReply true "Data saved successfully"))
  /\ option_map lastUpdated_of (Map_get (Some (JStr "a")) (userData (fst run)))
     = Some (Some (JStr "never"))
  /\ option_map lastUpdated_of (Map_get (Some (JStr "a")) (userData (fst run)))
     <> Some (Some (JNum (Fin 1700000000000))).
Proof.
  cbv zeta. split; [reflexivity|]. split; [reflexivity | discriminate].
Qed.

(** What does hold: a request without a [lastUpdated] field gets the
    server's clock. *)
Lemma lastUpdated_is_clock_when_client_sends_none (env : Env) (req_body : value)
    (id : string) (playerCount : value) (otherData : object) (w : World) :
  accepted req_body id playerCount otherData ->
  obj_get "lastUpdated" otherData = None ->
  option_map lastUpdated_of
    (Map_get (Some (JStr id)) (userData (fst (post_userlist env req_body w))))
  = Some (Some (JNum (Fin (Date_now env)))).
Proof.
  intros Hacc Habs. rewrite (post_userlist_store env _ _ _ _ w Hacc).
  rewrite Map_get_set_same. cbn [option_map].
  now rewrite new_record_lastUpdated.
Qed.

(** ** C2: a failed write *)

(** C2 (fails on the code).  The claim: when the write of
    [saveUserData] fails, POST /userlist answers 500.  [saveUserData]
    catches the failure itself, so the handler's own [catch] never sees
    it: the record is stored in memory, the file is as it was, and the
    answer is the 200 acknowledgment "Data saved successfully". *)
Theorem C2_failed_write_is_acknowledged (env : Env) (req_body : value)
    (id : string) (playerCount : value) (otherData : object) (w : World) :
  accepted req_body id playerCount otherData ->
  fs_fault env = true ->
  let run := post_userlist env req_body w in
  snd run = Returned (res_json (SavedReply true "Data saved successfully"))
  /\ snd run <> Returned (res_status_json 500 (ErrorReply "Failed to save data"))
  /\ disk (fst run) = disk w
  /\ console (fst run) = console w ++ ["Error saving user data:"].
Proof.
  intros Hacc Hfault. cbv zeta.
  rewrite (post_userlist_accepts env _ _ _ _ w Hacc).
  rewrite saveUserData_write_fails by assumption.
  cbn [fst snd]. split; [reflexivity|]. split; [discriminate|].
  split; reflexivity.
Qed.

Lemma C2_failed_write_is_acknowledged_witness :
  snd (post_userlist (disk_failing 1700000000000) (report "a" (Fin 3) [])
         (fresh_process empty_disk))
  = Returned (res_json (SavedReply true "Data saved successfully")).
Proof.
  apply (C2_failed_write_is_acknowledged (disk_failing 1700000000000)
           (report "a" (Fin 3) []) "a" (Some (JNum (Fin 3))) []
           (fresh_process empty_disk)).
  - split; [reflexivity | discriminate].
  - reflexivity.
Defined.

(** ** C5 and C10: requests without a usable [userId] *)

(** C5.  A request whose body has no [userId], or one that is not a
    string, is answered 400 and changes nothing: the map, the file and
    the console are as before (no record, no save). *)
Theorem C5_missing_or_nonstring_userId_is_rejected (env : Env)
    (req_body userId playerCount : value) (otherData : object) (w : World) :
  body_pattern req_body = Returned (userId, playerCount, otherData) ->
  is_string userId = false ->
  post_userlist env req_body w =
    (w, Returned (res_status_json 400 (ErrorReply "Missing or invalid userId"))).
Proof.
  intros Hb Hns. apply (post_userlist_rejects env _ _ _ _ w Hb).
  rewrite typeof_string, Hns. apply andb_false_r.
Qed.

Lemma C5_missing_or_nonstring_userId_is_rejected_witness :
  post_userlist (at_time 1700000000000)
    (Some (JObj [("userId", JNum (Fin 7)); ("playerCount", JNum (Fin 3))]))
    (fresh_process empty_disk)
  = (fresh_process empty_disk,
     Returned (res_status_json 400 (ErrorReply "Missing or invalid userId"))).
Proof.
  apply (C5_missing_or_nonstring_userId_is_rejected (at_time 1700000000000) _
           (Some (JNum (Fin 7))) (Some (JNum (Fin 3))) []);
    reflexivity.
Defined.

(** C10.  A request whose [userId] is the empty string is answered 400
    and changes nothing, although the empty string is a string: [!userId]
    is true of it. *)
Theorem C10_empty_userId_is_rejected (env : Env) (req_body playerCount : value)
    (otherData : object) (w : World) :
  body_pattern req_body = Returned (Some (JStr ""), playerCount, otherData) ->
  is_string (Some (JStr "")) = true
  /\ post_userlist env req_body w =
       (w, Returned (res_status_json 400 (ErrorReply "Missing or invalid userId"))).
Proof.
  intros Hb. split; [reflexivity|].
  now apply (post_userlist_rejects env _ _ _ _ w Hb).
Qed.

Lemma C10_empty_userId_is_rejected_witness :
  post_userlist (at_time 1700000000000) (report "" (Fin 3) [])
    (fresh_process empty_disk)
  = (fresh_process empty_disk,
     Returned (res_status_json 400 (ErrorReply "Missing or invalid userId"))).
Proof.
  apply (C10_empty_userId_is_rejected (at_time 1700000000000)
           (report "" (Fin 3) []) (Some (JNum (Fin 3))) []).
  reflexivity.
Defined.

(** ** C6: the stored [playerCount] *)

(** The double of a non-negative integer is not negative. *)
Lemma Fin_of_nonnegative (z : Z) :
  0 <= z ->
  match Fin z with
  | Finite true _ _ | Inf false => False
  | _ => True
  end.
Proof.
  intros Hz. destruct z as [|p|p]; [exact I| |lia].
  unfold Fin, binary_normalize, binary_round.
  destruct (shl_align p 0 _) as [mz ez]. unfold binary_round_aux.
  destruct (shr_fexp prec emax (Z.pos mz) ez loc_Exact) as [mrs' e'].
  destruct (shr_fexp prec emax _ e' loc_Exact) as [mrs'' e''].
  destruct (shr_m mrs''); [exact I| |exact I].
  destruct (Z.leb e'' (emax - prec)); exact I.
Qed.

(** C6 (as stated, false).  The request
    [{ userId: "a", playerCount: -5 }] is accepted and stores
    [playerCount: -5], which is not a non-negative integer. *)
Lemma C6_negative_count_is_stored :
  let req := report "a" (Fin (-5)) [] in
  let run := post_userlist (at_time 1700000000000) req (fresh_process empty_disk) in
  accepted req "a" (Some (JNum (Fin (-5)))) []
  /\ option_map playerCount_of (Map_get (Some (JStr "a")) (userData (fst run)))
     = Some (Some (JNum (Fin (-5))))
  /\ ~ nonneg_integer (Some (JNum (Fin (-5)))).
Proof.
  cbv zeta. split; [split; [reflexivity | discriminate]|].
  split; [reflexivity|].
  intros [z [Heq Hz]]. injection Heq as Heq.
  pose proof (Fin_of_nonnegative z Hz) as Hsign.
  rewrite <- Heq in Hsign. exact Hsign.
Qed.

(** C6 (amended).  For every accepted submission the stored
    [playerCount] is a number: the submitted one when that is a number
    (whatever its sign or size) and 0 when it is absent or not a number;
    so it is a non-negative integer whenever the submitted value is one
    or is no number. *)
Theorem C6_stored_count_is_submitted_number_or_zero (env : Env) (req_body : value)
    (id : string) (playerCount : value) (otherData : object) (w : World) :
  accepted req_body id playerCount otherData ->
  exists record,
    Map_get (Some (JStr id)) (userData (fst (post_userlist env req_body w)))
    = Some record
    /\ playerCount_of record = Some (submitted_count playerCount)
    /\ is_number (playerCount_of record) = true
    /\ (is_number playerCount = true -> playerCount_of record = playerCount)
    /\ (is_number playerCount = false ->
        playerCount_of record = Some (JNum (Fin 0)))
    /\ (is_number playerCount = false \/ nonneg_integer playerCount ->
        nonneg_integer (playerCount_of record)).
Proof.
  intros Hacc.
  exists (Some (new_record env playerCount otherData)).
  rewrite (post_userlist_store env _ _ _ _ w Hacc), Map_get_set_same.
  destruct Hacc as [Hb _].
  rewrite (new_record_playerCount env _ _ _ _ Hb).
  split; [reflexivity|]. split; [reflexivity|].
  destruct playerCount as [[| |n| | |]|]; cbn [submitted_count is_number];
    repeat split; try reflexivity; try discriminate;
    intros [Hd|Hn]; try discriminate; try assumption;
    try (exists 0; split; [reflexivity|lia]);
    try (destruct Hn as [z [Hz _]]; discriminate).
Qed.

Lemma C6_stored_count_is_submitted_number_or_zero_witness :
  exists record,
    Map_get (Some (JStr "a"))
      (userData (fst (post_userlist (at_time 1700000000000)
                        (report "a" (Fin 3) []) (fresh_process empty_disk))))
    = Some record
    /\ playerCount_of record = Some (JNum (Fin 3)).
Proof.
  destruct (C6_stored_count_is_submitted_number_or_zero (at_time 1700000000000)
              (report "a" (Fin 3) []) "a" (Some (JNum (Fin 3))) []
              (fresh_process empty_disk)) as [record [Hget [Hpc _]]].
  - split; [reflexivity | discriminate].
  - exists record. split; assumption.
Defined.

(** ** C3: the aggregate *)

Lemma plus_zero_r (x : number) : plus x (Num (Fin 0)) = x.
Proof. destruct x as [[|s m e|[|]]|]; reflexivity. Qed.

Lemma get_prop_playerCount (user : value) :
  match user with None | Some JNull => False | Some _ => True end ->
  get_playerCount user = Returned (playerCount_of user).
Proof. destruct user as [[]|]; simpl; tauto. Qed.

(** One turn of the counting loop on a record that can be read: a
    numeric [playerCount] is added to both locals (adding 0 is what
    skipping a zero amounts to), anything else is skipped. *)
Lemma add_user_readable (user : value) (locals : number * number) :
  match user with None | Some JNull => False | Some _ => True end ->
  add_user user locals =
    (if is_number (playerCount_of user)
     then (plus (fst locals) (as_number (playerCount_of user)),
           plus (snd locals) (as_number (playerCount_of user)))
     else locals,
     Returned tt).
Proof.
  intros Hr. unfold add_user; js_run. rewrite (get_prop_playerCount _ Hr).
  destruct (playerCount_of user) as [[|b|[|s m e|p]|str| |]|]; try reflexivity.
  - destruct b; reflexivity.
  - cbn [truthy typeof is_number as_number andb].
    change (Num Zero) with (Num (Fin 0)).
    rewrite !plus_zero_r. now destruct locals.
  - cbn [truthy]. destruct (negb (String.eqb str "")); reflexivity.
Qed.

Lemma for_each_add_user (m : Map) (locals : number * number) :
  readable m = true ->
  for_each (map snd m) add_user locals =
    (let counts := map as_number
                     (filter is_number (map (fun kv => playerCount_of (snd kv)) m)) in
     (fold_left plus counts (fst locals), fold_left plus counts (snd locals)),
     Returned tt).
Proof.
  revert locals. induction m as [|[k user] rest IH]; intros locals Hr.
  - simpl. now destruct locals.
  - cbn [readable forallb snd] in Hr. apply andb_prop in Hr as [Hu Hrest].
    cbn [map snd for_each]. unfold bind at 1.
    rewrite add_user_readable
      by (destruct user as [[]|]; simpl in *; solve [exact I | discriminate]).
    fold (readable rest) in Hrest. rewrite (IH _ Hrest).
    cbn [filter]. destruct (is_number (playerCount_of user)); reflexivity.
Qed.

Lemma count_players_readable (m : Map) :
  readable m = true ->
  count_players m = Returned (sum_of_counts m, sum_of_counts m).
Proof.
  intros Hr. unfold count_players. now rewrite for_each_add_user.
Qed.

(** A record written by the handler can be read. *)
Lemma readable_Map_set (k : value) (j : json) (m : Map) :
  j <> JNull -> readable m = true -> readable (Map_set k (Some j) m) = true.
Proof.
  intros Hj.
  assert (match j with JNull => false | _ => true end = true) as Hread
    by (destruct j; solve [reflexivity | congruence]).
  induction m as [|[k' v'] rest IH]; intros Hr.
  - cbn [Map_set readable forallb snd]. now rewrite Hread.
  - cbn [readable forallb snd] in Hr. apply andb_prop in Hr as [Hv Hrest].
    cbn [Map_set]. destruct (same_value_zero k' k).
    + cbn [readable forallb snd]. now rewrite Hread, Hrest.
    + cbn [readable forallb snd]. rewrite Hv. apply IH, Hrest.
Qed.

(** Addition is the addition of doubles: it rounds and it overflows. *)
Lemma plus_rounds_to_the_nearest_double :
  plus (Num (Fin 9007199254740992)) (Num (Fin 1)) = Num (Fin 9007199254740992)
  /\ plus (Num ten_to_308) (Num ten_to_308) = Num (Inf true)
  /\ plus (Num (Inf true)) (Num (Inf false)) = NaN
  /\ plus (Num (Finite false 4503599627370496 (-53)))
          (Num (Finite false 4503599627370496 (-53))) = Num (Fin 1).
Proof. repeat split; vm_compute; reflexivity. Qed.

(** C3 (as stated, false).  After the accepted submissions
    [a: 1e308] and [b: 1e308], both finite numbers, the running sum of
    doubles overflows: GET /player-count hands [Infinity] to [res.json]
    and the client receives [null] as [current] and as [total], which
    is no sum of the two counts. *)
Lemma C3_overflowing_sum_is_sent_as_null :
  let w := fst (post_userlist (at_time 1700000005000) (report "b" ten_to_308 [])
                  (fst (post_userlist (at_time 1700000000000)
                          (report "a" ten_to_308 []) (fresh_process empty_disk)))) in
  readable (userData w) = true
  /\ finite_counts (userData w) = true
  /\ snd (get_player_count w)
     = Returned (res_json (CountsReply (Num (Inf true)) (Num (Inf true))))
  /\ sent (CountsReply (Num (Inf true)) (Num (Inf true)))
     = JObj [("current", JNull); ("total", JNull)]
  /\ is_number (obj_get "current"
                  (own_props (sent (CountsReply (Num (Inf true)) (Num (Inf true))))))
     = false.
Proof. cbv zeta. repeat split; vm_compute; reflexivity. Qed.

(** C3 (amended).  For every store whose records can be read (as all
    records of submissions can), the aggregate is the sum of
    [playerCount] over the records where it is a number, added as
    doubles in the order of the map from 0; GET /player-count hands it
    to [res.json] as [current] and as [total], so the client receives
    that number in both fields when it is finite and [null] in both
    when it is infinite or [NaN]; after the submissions [a: 3] and
    [b: 5] to an empty store the client receives
    [{ current: 8, total: 8 }]. *)
Theorem C3_aggregate_is_double_sum_sent_as_json :
  (forall w : World,
     readable (userData w) = true ->
     get_player_count w =
       (w, Returned (res_json (CountsReply (sum_of_counts (userData w))
                                           (sum_of_counts (userData w)))))
     /\ sent (CountsReply (sum_of_counts (userData w)) (sum_of_counts (userData w)))
        = match sum_of_counts (userData w) with
          | Num (Inf _) | NaN => JObj [("current", JNull); ("total", JNull)]
          | Num n => JObj [("current", JNum n); ("total", JNum n)]
          end)
  /\ (forall (env1 env2 : Env) (d : Disk),
        let w := fst (post_userlist env2 (report "b" (Fin 5) [])
                        (fst (post_userlist env1 (report "a" (Fin 3) [])
                                (fresh_process d)))) in
        get_player_count w =
          (w, Returned (res_json (CountsReply (Num (Fin 8)) (Num (Fin 8)))))
        /\ sent (CountsReply (Num (Fin 8)) (Num (Fin 8)))
           = JObj [("current", JNum (Fin 8)); ("total", JNum (Fin 8))]).
Proof.
  assert (forall w : World,
            readable (userData w) = true ->
            get_player_count w =
              (w, Returned (res_json (CountsReply (sum_of_counts (userData w))
                                                  (sum_of_counts (userData w))))))
    as Hsum.
  { intros w Hr. unfold get_player_count; js_run.
    now rewrite count_players_readable. }
  split.
  { intros w Hr. split; [now apply Hsum|].
    destruct (sum_of_counts (userData w)) as [[|s m e|p]|]; reflexivity. }
  intros env1 env2 d w.
  assert (userData w =
            [(Some (JStr "a"), Some (new_record env1 (Some (JNum (Fin 3))) []));
             (Some (JStr "b"), Some (new_record env2 (Some (JNum (Fin 5))) []))])
    as Hstore.
  { unfold w.
    rewrite (post_userlist_store env2 _ "b" (Some (JNum (Fin 5))) [])
      by (split; [reflexivity | discriminate]).
    rewrite (post_userlist_store env1 _ "a" (Some (JNum (Fin 3))) [])
      by (split; [reflexivity | discriminate]).
    reflexivity. }
  split; [|vm_compute; reflexivity].
  rewrite Hsum by (rewrite Hstore; reflexivity).
  rewrite Hstore. do 3 f_equal; vm_compute; reflexivity.
Qed.

Lemma C3_aggregate_is_double_sum_sent_as_json_witness :
  let w := set_userData
             (fun _ => [(Some (JStr "a"), Some (JObj [("playerCount", JNum (Fin 3))]));
                        (Some (JStr "b"), Some (JObj [("playerCount", JStr "many")]));
                        (Some (JStr "c"),
                         Some (JObj [("playerCount",
                                      JNum (Finite false 4503599627370496 (-53)))]))])
             (fresh_process (disk_with (JArr []))) in
  get_player_count w =
    (w, Returned (res_json (CountsReply (Num (Finite false 7881299347898368 (-51)))
                                        (Num (Finite false 7881299347898368 (-51)))))).
Proof.
  cbv zeta.
  apply (proj1 C3_aggregate_is_double_sum_sent_as_json
           (set_userData
              (fun _ => [(Some (JStr "a"), Some (JObj [("playerCount", JNum (Fin 3))]));
                         (Some (JStr "b"), Some (JObj [("playerCount", JStr "many")]));
                         (Some (JStr "c"),
                          Some (JObj [("playerCount",
                                       JNum (Finite false 4503599627370496 (-53)))]))])
              (fresh_process (disk_with (JArr []))))).
  reflexivity.
Defined.

(** ** C4: one record per user *)

Lemma jnum_eqb_eq (a b : jnum) : jnum_eqb a b = true -> a = b.
Proof.
  destruct a as [|s m e|p], b as [|s' m' e'|p']; simpl;
    intros H; try discriminate; try reflexivity.
  - apply andb_prop in H as [H He]. apply andb_prop in H as [Hs Hm].
    apply Bool.eqb_prop in Hs. apply Pos.eqb_eq in Hm. apply Z.eqb_eq in He.
    now subst.
  - apply Bool.eqb_prop in H. now subst.
Qed.

Lemma jnum_eqb_sym (a b : jnum) : jnum_eqb a b = jnum_eqb b a.
Proof.
  destruct a as [|s m e|p], b as [|s' m' e'|p']; simpl; try reflexivity.
  - rewrite (Pos.eqb_sym m m'), (Z.eqb_sym e e'). now destruct s, s'.
  - now destruct p, p'.
Qed.

Lemma same_value_zero_eq (a b : value) :
  same_value_zero a b = true -> a = b.
Proof.
  destruct a as [[| | | | |]|], b as [[| | | | |]|]; simpl;
    intros H; try discriminate; try reflexivity.
  - apply Bool.eqb_prop in H. now subst.
  - apply jnum_eqb_eq in H. now subst.
  - apply String.eqb_eq in H. now subst.
Qed.

Lemma same_value_zero_sym (a b : value) :
  same_value_zero a b = same_value_zero b a.
Proof.
  destruct a as [[|x|x|x|x|x]|], b as [[|y|y|y|y|y]|]; simpl; try reflexivity.
  - now destruct x, y.
  - apply jnum_eqb_sym.
  - apply String.eqb_sym.
Qed.

Lemma differs_from_all_Map_set (k0 k v : value) (m : Map) :
  same_value_zero k k0 = false ->
  forallb (fun kv => negb (same_value_zero (fst kv) k0)) m = true ->
  forallb (fun kv => negb (same_value_zero (fst kv) k0)) (Map_set k v m) = true.
Proof.
  intros Hk. induction m as [|[k' v'] rest IH]; intros Hall.
  - simpl. now rewrite Hk.
  - cbn [forallb fst] in Hall. apply andb_prop in Hall as [Hhd Htl].
    cbn [Map_set]. destruct (same_value_zero k' k);
      cbn [forallb fst]; rewrite Hhd; auto.
Qed.

(** [set] keeps the keys of a map distinct. *)
Lemma distinct_keys_Map_set (k v : value) (m : Map) :
  distinct_keys m = true -> distinct_keys (Map_set k v m) = true.
Proof.
  induction m as [|[k' v'] rest IH]; intros Hd.
  - reflexivity.
  - cbn [distinct_keys] in Hd. apply andb_prop in Hd as [Hhd Htl].
    cbn [Map_set]. destruct (same_value_zero k' k) eqn:E.
    + cbn [distinct_keys]. now rewrite Hhd, Htl.
    + cbn [distinct_keys]. rewrite IH by assumption.
      rewrite differs_from_all_Map_set; auto.
      now rewrite same_value_zero_sym.
Qed.

Lemma occurrences_absent (k : value) (m : Map) :
  forallb (fun kv => negb (same_value_zero (fst kv) k)) m = true ->
  occurrences k m = 0%nat.
Proof.
  unfold occurrences. induction m as [|[k' v'] rest IH]; intros Hall.
  - reflexivity.
  - cbn [forallb fst] in Hall. apply andb_prop in Hall as [Hhd Htl].
    cbn [filter fst]. apply negb_true_iff in Hhd. rewrite Hhd. auto.
Qed.

(** After [set] a key that equals itself is held exactly once. *)
Lemma occurrences_Map_set (k v : value) (m : Map) :
  same_value_zero k k = true ->
  distinct_keys m = true ->
  occurrences k (Map_set k v m) = 1%nat.
Proof.
  intros Hkk. induction m as [|[k' v'] rest IH]; intros Hd.
  - unfold occurrences. simpl. now rewrite Hkk.
  - cbn [distinct_keys] in Hd. apply andb_prop in Hd as [Hhd Htl].
    cbn [Map_set]. destruct (same_value_zero k' k) eqn:E.
    + apply same_value_zero_eq in E. subst k'.
      unfold occurrences. cbn [filter fst]. rewrite Hkk. cbn [List.length].
      f_equal. now apply occurrences_absent.
    + unfold occurrences. cbn [filter fst]. rewrite E. now apply IH.
Qed.

Lemma obj_get_absent_when_unique (k : string) (v : json) (rest : object) :
  forallb (fun kv => negb (String.eqb (fst kv) k)) rest = true ->
  obj_get k rest = None.
Proof.
  induction rest as [|[k' v'] l IH]; intros Hall.
  - reflexivity.
  - cbn [forallb fst] in Hall. apply andb_prop in Hall as [Hk Hl].
    apply negb_true_iff in Hk. cbn [obj_get]. rewrite Hk. now apply IH.
Qed.

(** The spread copies every property of an object with distinct
    names. *)
Lemma obj_get_spread_unique (k : string) (v : json) (src init : object) :
  unique_names src = true ->
  obj_get k src = Some v ->
  obj_get k (spread src init) = Some v.
Proof.
  revert init. induction src as [|[k' v'] rest IH]; intros init Hu Hget.
  - discriminate.
  - cbn [unique_names] in Hu. apply andb_prop in Hu as [Hfresh Hu].
    cbn [obj_get] in Hget. unfold spread. cbn [fold_left fst snd].
    fold (spread rest (obj_set k' v' init)).
    destruct (String.eqb_spec k' k) as [->|Hne].
    + injection Hget as ->.
      rewrite obj_get_spread_absent
        by (now apply (obj_get_absent_when_unique k v)).
      apply obj_get_set_same.
    + now apply IH.
Qed.

(** C4.  Two accepted submissions in a row for the same [userId] leave
    exactly one record under that id, and every field of it comes from
    the second submission: its [playerCount] is the one the second
    request submitted (0 when it is absent or not a number), the extra
    fields of the second request (a parsed object, whose names are
    distinct) are there as sent, [lastUpdated] is
    the clock of the second handling unless the second request sent one
    itself, and there is no other field, so nothing of the first
    submission is left; it is the record the second request alone
    stores in an empty map. *)
Theorem C4_second_submission_replaces_first (env1 env2 : Env)
    (req1 req2 : value) (id : string) (playerCount1 playerCount2 : value)
    (otherData1 otherData2 : object) (w : World) :
  distinct_keys (userData w) = true ->
  accepted req1 id playerCount1 otherData1 ->
  accepted req2 id playerCount2 otherData2 ->
  let w' := fst (post_userlist env2 req2 (fst (post_userlist env1 req1 w))) in
  occurrences (Some (JStr id)) (userData w') = 1%nat
  /\ Map_get (Some (JStr id)) (userData w')
     = Map_get (Some (JStr id))
         (userData (fst (post_userlist env2 req2 (fresh_process (disk w)))))
  /\ exists fields : object,
       Map_get (Some (JStr id)) (userData w') = Some (Some (JObj fields))
       /\ obj_get "playerCount" fields = Some (submitted_count playerCount2)
       /\ (unique_names otherData2 = true ->
           forall (field : string) (v : json),
             obj_get field otherData2 = Some v -> obj_get field fields = Some v)
       /\ (obj_get "lastUpdated" otherData2 = None ->
           obj_get "lastUpdated" fields = Some (JNum (Fin (Date_now env2))))
       /\ (forall field : string,
             obj_get field otherData2 = None ->
             field <> "playerCount" -> field <> "lastUpdated" ->
             obj_get field fields = None).
Proof.
  intros Hd Hacc1 Hacc2 w'. unfold w'.
  rewrite (post_userlist_store env2 _ _ _ _ _ Hacc2).
  rewrite (post_userlist_store env1 _ _ _ _ _ Hacc1).
  rewrite (post_userlist_store env2 _ _ _ _ _ Hacc2).
  split.
  { apply occurrences_Map_set.
    - apply same_value_zero_refl_string.
    - now apply distinct_keys_Map_set. }
  split; [now rewrite !Map_get_set_same|].
  exists (spread otherData2
            [("playerCount", count_or_zero playerCount2);
             ("lastUpdated", JNum (Fin (Date_now env2)))]).
  split; [apply Map_get_set_same|].
  destruct Hacc2 as [Hb2 _].
  destruct (body_pattern_rest _ _ _ _ Hb2) as [Hpc _].
  split.
  { rewrite obj_get_spread_absent by exact Hpc.
    cbn [obj_get]. rewrite String.eqb_refl. now rewrite count_or_zero_submitted. }
  split; [intros Hu field v Hget; now apply obj_get_spread_unique|].
  split.
  { intros Habs. rewrite obj_get_spread_absent by exact Habs. reflexivity. }
  intros field Habs Hnpc Hnlu.
  rewrite obj_get_spread_absent by exact Habs. cbn [obj_get].
  destruct (String.eqb_spec "playerCount" field); [congruence|].
  destruct (String.eqb_spec "lastUpdated" field); [congruence|]. reflexivity.
Qed.

Lemma C4_second_submission_replaces_first_witness :
  let w := fresh_process empty_disk in
  let w' := fst (post_userlist (at_time 1700000005000)
                   (report "a" (Fin 9) [("paws", JNum (Fin 4))])
                   (fst (post_userlist (at_time 1700000000000)
                           (report "a" (Fin 3) [("skin", JStr "tabby")]) w))) in
  occurrences (Some (JStr "a")) (userData w') = 1%nat
  /\ exists fields : object,
       Map_get (Some (JStr "a")) (userData w') = Some (Some (JObj fields))
       /\ obj_get "playerCount" fields = Some (JNum (Fin 9))
       /\ obj_get "paws" fields = Some (JNum (Fin 4))
       /\ obj_get "lastUpdated" fields = Some (JNum (Fin 1700000005000))
       /\ obj_get "skin" fields = None.
Proof.
  cbv zeta.
  destruct (C4_second_submission_replaces_first
              (at_time 1700000000000) (at_time 1700000005000)
              (report "a" (Fin 3) [("skin", JStr "tabby")])
              (report "a" (Fin 9) [("paws", JNum (Fin 4))])
              "a" (Some (JNum (Fin 3))) (Some (JNum (Fin 9)))
              [("skin", JStr "tabby")] [("paws", JNum (Fin 4))]
              (fresh_process empty_disk))
    as (Hone & _ & fields & Hget & Hpc & Hsent & Hclock & Hgone).
  - reflexivity.
  - split; [reflexivity | discriminate].
  - split; [reflexivity | discriminate].
  - split; [exact Hone|]. exists fields.
    split; [exact Hget|]. split; [exact Hpc|].
    split; [apply Hsent; reflexivity|].
    split; [apply Hclock; reflexivity|].
    apply Hgone; [reflexivity | discriminate | discriminate].
Defined.

(** ** C7: loading the file *)

(** [loadUserData] on a file that denotes an array: the map is cleared
    and filled entry by entry; an entry that cannot be taken apart stops
    the loop with the earlier entries in place. *)
Lemma loadUserData_array (env : Env) (w : World) (items : list json) :
  fs_fault env = false ->
  user_data_file (disk w) = Some (Denotes (JArr items)) ->
  loadUserData env w =
    match for_each items load_entry (set_userData (fun _ => []) w) with
    | (w', Returned _) =>
        (print ("Loaded " ++ index_key (List.length (userData w')) ++ " users from file") w',
         Returned tt)
    | (w', Thrown _) =>
        (print "No existing user data file found, starting fresh" w', Returned tt)
    end.
Proof.
  intros Hf Hfile. unfold loadUserData, fs_readFile; js_run.
  rewrite Hf, Hfile. cbn [JSON_parse array_forEach].
  destruct (for_each items _ _) as [w' [[]|e]]; reflexivity.
Qed.

(** No file (or a refused read): nothing is touched but the console. *)
Lemma loadUserData_missing_file (env : Env) (w : World) :
  fs_fault env = true \/ user_data_file (disk w) = None ->
  loadUserData env w =
    (print "No existing user data file found, starting fresh" w, Returned tt).
Proof.
  intros H. unfold loadUserData, fs_readFile; js_run.
  destruct (fs_fault env); [reflexivity|].
  destruct H as [H|H]; [discriminate|]. now rewrite H.
Qed.

(** A file that is not JSON: nothing is touched but the console. *)
Lemma loadUserData_syntax_error (env : Env) (w : World) :
  user_data_file (disk w) = Some Malformed ->
  loadUserData env w =
    (print "No existing user data file found, starting fresh" w, Returned tt).
Proof.
  intros H. unfold loadUserData, fs_readFile; js_run.
  destruct (fs_fault env); [reflexivity|]. now rewrite H.
Qed.

(** A file that denotes something other than an array: the map has been
    cleared when [forEach] turns out to be missing. *)
Lemma loadUserData_not_an_array (env : Env) (w : World) (j : json) :
  fs_fault env = false ->
  user_data_file (disk w) = Some (Denotes j) ->
  match j with JArr _ => False | _ => True end ->
  loadUserData env w =
    (print "No existing user data file found, starting fresh"
       (set_userData (fun _ => []) w),
     Returned tt).
Proof.
  intros Hf Hfile Hj. unfold loadUserData, fs_readFile; js_run.
  rewrite Hf, Hfile. destruct j; try reflexivity. contradiction.
Qed.

(** At start-up, with no file, a file that is not JSON or one that is
    not an array, the map stays empty and [loadUserData] returns. *)
Lemma loadUserData_fresh_without_entries (env : Env) (d : Disk) :
  fs_fault env = true
  \/ user_data_file d = None
  \/ user_data_file d = Some Malformed
  \/ (exists j, user_data_file d = Some (Denotes j)
                /\ match j with JArr _ => False | _ => True end) ->
  snd (loadUserData env (fresh_process d)) = Returned tt
  /\ userData (fst (loadUserData env (fresh_process d))) = [].
Proof.
  intros H. destruct (fs_fault env) eqn:Hf.
  - rewrite loadUserData_missing_file by auto. split; reflexivity.
  - destruct H as [H|[H|[H|[j [H Hj]]]]]; [discriminate| | |].
    + rewrite loadUserData_missing_file by auto. split; reflexivity.
    + rewrite loadUserData_syntax_error by exact H. split; reflexivity.
    + rewrite (loadUserData_not_an_array env _ j) by assumption.
      split; reflexivity.
Qed.

(** C7 (fails on the code).  The claim: after a failed load no entry
    remains in the map.  The file
    [[["a", {"playerCount": 3}], 7]] is JSON, its first entry is stored,
    and its second entry cannot be taken apart as [[id, user]]: the
    exception ends the loop, the [catch] logs "starting fresh" and
    [loadUserData] returns with the first entry still in the map. *)
Theorem C7_entry_that_is_no_pair_leaves_a_partial_load :
  let d := disk_with (JArr [JArr [JStr "a"; JObj [("playerCount", JNum (Fin 3))]];
                            JNum (Fin 7)]) in
  let run := loadUserData (at_time 1700000000000) (fresh_process d) in
  snd run = Returned tt
  /\ console (fst run) = ["No existing user data file found, starting fresh"]
  /\ userData (fst run)
     = [(Some (JStr "a"), Some (JObj [("playerCount", JNum (Fin 3))]))]
  /\ userData (fst run) <> [].
Proof.
  cbv zeta. split; [reflexivity|]. split; [reflexivity|].
  split; [reflexivity | discriminate].
Qed.

(** ** C8: the aggregate across a restart *)

Lemma Map_set_absent (k v : value) (m : Map) :
  forallb (fun kv => negb (same_value_zero (fst kv) k)) m = true ->
  Map_set k v m = m ++ [(k, v)].
Proof.
  induction m as [|[k' v'] rest IH]; intros Hall.
  - reflexivity.
  - cbn [forallb fst] in Hall. apply andb_prop in Hall as [Hhd Htl].
    apply negb_true_iff in Hhd. cbn [Map_set]. rewrite Hhd.
    simpl. now rewrite IH.
Qed.

Lemma distinct_keys_app_absent (m rest : Map) (k v : value) :
  distinct_keys (m ++ (k, v) :: rest) = true ->
  forallb (fun kv => negb (same_value_zero (fst kv) k)) m = true.
Proof.
  induction m as [|[k' v'] m' IH]; intros Hd.
  - reflexivity.
  - cbn [app distinct_keys] in Hd. apply andb_prop in Hd as [Hhd Htl].
    cbn [forallb fst]. rewrite (IH Htl), andb_true_r.
    rewrite forallb_app in Hhd. apply andb_prop in Hhd as [_ Hhd].
    cbn [forallb fst] in Hhd. apply andb_prop in Hhd as [Hk _].
    now rewrite same_value_zero_sym.
Qed.

(** Setting the entries of a list with distinct new keys appends them. *)
Lemma fold_Map_set_distinct (entries m : Map) :
  distinct_keys (m ++ entries) = true ->
  fold_left (fun acc kv => Map_set (fst kv) (snd kv) acc) entries m
  = m ++ entries.
Proof.
  revert m. induction entries as [|[k v] rest IH]; intros m Hd.
  - simpl. now rewrite app_nil_r.
  - cbn [fold_left fst snd].
    rewrite Map_set_absent by (eapply distinct_keys_app_absent; eauto).
    rewrite IH; rewrite <- app_assoc; auto.
Qed.

(** The loop of [loadUserData] over the entries written for a map. *)
Lemma for_each_load_entry_written (m : Map) (w : World) :
  for_each
    (map (fun kv => JArr [written_item (fst kv); written_item (snd kv)]) m)
    load_entry w
  = (set_userData
       (fold_left (fun acc kv => Map_set (fst kv) (snd kv) acc) (reread m)) w,
     Returned tt).
Proof.
  revert w. induction m as [|[k v] rest IH]; intros w.
  - destruct w; reflexivity.
  - cbn [map for_each reread fold_left fst snd].
    unfold bind at 1. unfold load_entry at 1; js_run.
    cbn [pair_pattern nth_error fst snd]. rewrite IH. reflexivity.
Qed.

(** A store of user records comes back from the file with its keys. *)
Lemma reread_user_store (m : Map) :
  forallb (fun kv => is_string (fst kv) && is_object (snd kv)) m = true ->
  map fst (reread m) = map fst m.
Proof.
  induction m as [|[k v] rest IH]; intros Hall.
  - reflexivity.
  - cbn [forallb fst snd] in Hall. apply andb_prop in Hall as [Hhd Htl].
    apply andb_prop in Hhd as [Hk _].
    cbn [reread map fst]. fold (reread rest). rewrite (IH Htl).
    destruct k as [[]|]; try discriminate. reflexivity.
Qed.

Lemma distinct_keys_same_keys (m m' : Map) :
  map fst m = map fst m' -> distinct_keys m = distinct_keys m'.
Proof.
  revert m'. induction m as [|[k v] rest IH]; intros [|[k' v'] rest'] Heq;
    try discriminate; [reflexivity|].
  cbn [map fst] in Heq. injection Heq as -> Hrest.
  cbn [distinct_keys]. rewrite (IH _ Hrest). f_equal.
  clear IH. revert rest' Hrest.
  induction rest as [|[a b] l IHl]; intros [|[a' b'] l'] Hr;
    try discriminate; [reflexivity|].
  cbn [map fst] in Hr. injection Hr as -> Hl.
  cbn [forallb fst]. now rewrite (IHl _ Hl).
Qed.

(** [JSON.stringify] turns no value into a number, and keeps the finite
    ones. *)
Lemma written_playerCount (user : value) :
  is_object user = true ->
  match playerCount_of user with Some (JNum (Inf _)) => false | _ => true end = true ->
  is_number (playerCount_of (Some (written_item user)))
  = is_number (playerCount_of user)
  /\ (is_number (playerCount_of user) = true ->
      playerCount_of (Some (written_item user)) = playerCount_of user).
Proof.
  destruct user as [[| | | | |o]|]; try discriminate. intros _.
  cbn [playerCount_of written_item written own_props].
  induction o as [|[k v] rest IH]; intros Hfin.
  - split; reflexivity.
  - cbn [map obj_get fst snd] in *.
    destruct (String.eqb k "playerCount").
    + destruct v as [| |[|s m e|p]| | |]; try discriminate;
        split; try reflexivity; discriminate.
    + apply IH, Hfin.
Qed.

Lemma sum_of_counts_reread (m : Map) :
  forallb (fun kv => is_string (fst kv) && is_object (snd kv)) m = true ->
  finite_counts m = true ->
  sum_of_counts (reread m) = sum_of_counts m.
Proof.
  intros Hobj Hfin. unfold sum_of_counts. f_equal.
  induction m as [|[k v] rest IH].
  - reflexivity.
  - cbn [forallb fst snd finite_counts] in Hobj, Hfin.
    apply andb_prop in Hobj as [Hhd Hobj]. apply andb_prop in Hhd as [_ Hv].
    apply andb_prop in Hfin as [Hvfin Hfin].
    destruct (written_playerCount v Hv Hvfin) as [Hnum Hsame].
    cbn [reread map filter snd]. fold (reread rest). rewrite Hnum.
    destruct (is_number (playerCount_of v)) eqn:E.
    + cbn [map]. rewrite (Hsame eq_refl). f_equal. now apply IH.
    + now apply IH.
Qed.

Lemma readable_user_store (m : Map) :
  forallb (fun kv => is_string (fst kv) && is_object (snd kv)) m = true ->
  readable m = true.
Proof.
  induction m as [|[k v] rest IH]; intros Hall.
  - reflexivity.
  - cbn [forallb fst snd] in Hall. apply andb_prop in Hall as [Hhd Htl].
    apply andb_prop in Hhd as [_ Hv].
    cbn [readable forallb snd]. fold (readable rest). rewrite (IH Htl).
    destruct v as [[]|]; try discriminate; reflexivity.
Qed.

Lemma readable_reread (m : Map) :
  forallb (fun kv => is_string (fst kv) && is_object (snd kv)) m = true ->
  readable (reread m) = true.
Proof.
  induction m as [|[k v] rest IH]; intros Hall.
  - reflexivity.
  - cbn [forallb fst snd] in Hall. apply andb_prop in Hall as [Hhd Htl].
    apply andb_prop in Hhd as [_ Hv].
    cbn [reread map readable forallb snd]. fold (reread rest).
    fold (readable (reread rest)). rewrite (IH Htl).
    destruct v as [[]|]; try discriminate; reflexivity.
Qed.

(** A saved store of user records is read back entry for entry by a
    restarted process. *)
Lemma restart_rereads_user_store (env env' : Env) (w : World) :
  user_store (userData w) = true ->
  fs_fault env = false -> data_dir (disk w) = true ->
  fs_fault env' = false ->
  userData (restart env' (fst (saveUserData env w))) = reread (userData w).
Proof.
  intros Hus Hf Hd Hf'. apply andb_prop in Hus as [Hdist Hobj].
  rewrite saveUserData_writes by assumption. cbn [fst].
  unfold restart, init, init_on, app_listen, ensureDataDir, fs_mkdir. rewrite Hf'. js_run.
  erewrite loadUserData_array; [|exact Hf'|reflexivity].
  rewrite for_each_load_entry_written.
  cbn [userData set_userData print listen fst fresh_process].
  apply (fold_Map_set_distinct (reread (userData w)) []).
  cbn [app]. rewrite (distinct_keys_same_keys _ (userData w)); auto.
  now apply reread_user_store.
Qed.

(** C8 (as stated, false).  The request
    [{ userId: "a", playerCount: 1e999 }] stores an infinite
    [playerCount] and the aggregate is infinite; the file holds [null]
    for it, so after a save and a restart the same record counts for
    nothing and the aggregate is 0. *)
Lemma C8_infinite_count_is_lost_across_restart :
  let w := fst (post_userlist (at_time 1700000000000)
                  (report "a" (Inf true) []) (fresh_process empty_disk)) in
  let reborn := restart (at_time 1700000060000)
                  (fst (saveUserData (at_time 1700000030000) w)) in
  user_store (userData w) = true
  /\ count_players (userData w) = Returned (Num (Inf true), Num (Inf true))
  /\ count_players (userData reborn) = Returned (Num (Fin 0), Num (Fin 0))
  /\ count_players (userData reborn) <> count_players (userData w).
Proof.
  cbv zeta. split; [reflexivity|]. split; [reflexivity|].
  split; [reflexivity | discriminate].
Qed.

(** C8 (amended).  For every store of user records in which no
    [playerCount] is an infinite number, a save that succeeds followed
    by a restart that reads the file gives a map with the same
    aggregate: GET /player-count answers the same before and after. *)
Theorem C8_restart_keeps_aggregate_of_finite_counts (env env' : Env) (w : World) :
  user_store (userData w) = true ->
  finite_counts (userData w) = true ->
  fs_fault env = false -> data_dir (disk w) = true ->
  fs_fault env' = false ->
  let reborn := restart env' (fst (saveUserData env w)) in
  count_players (userData reborn) = count_players (userData w)
  /\ snd (get_player_count reborn) = snd (get_player_count w)
  /\ snd (get_player_count w)
     = Returned (res_json (CountsReply (sum_of_counts (userData w))
                                       (sum_of_counts (userData w)))).
Proof.
  intros Hus Hfin Hf Hd Hf' reborn.
  assert (userData reborn = reread (userData w)) as Hre
    by (now apply restart_rereads_user_store).
  apply andb_prop in Hus as [_ Hobj].
  assert (count_players (userData reborn) = count_players (userData w)) as Hsame.
  { rewrite Hre.
    rewrite !count_players_readable
      by (try apply readable_reread; try apply readable_user_store; assumption).
    now rewrite sum_of_counts_reread. }
  split; [exact Hsame|].
  unfold get_player_count; js_run. rewrite Hsame.
  rewrite count_players_readable by now apply readable_user_store.
  split; reflexivity.
Qed.

Lemma C8_restart_keeps_aggregate_of_finite_counts_witness :
  let w := fst (post_userlist (at_time 1700000005000) (report "b" (Fin 5) [])
                  (fst (post_userlist (at_time 1700000000000)
                          (report "a" (Fin 3) [("skin", JNum (Inf true))])
                          (fresh_process empty_disk)))) in
  let reborn := restart (at_time 1700000060000)
                  (fst (saveUserData (at_time 1700000030000) w)) in
  count_players (userData reborn) = count_players (userData w).
Proof.
  cbv zeta.
  apply (C8_restart_keeps_aggregate_of_finite_counts
           (at_time 1700000030000) (at_time 1700000060000)
           (fst (post_userlist (at_time 1700000005000) (report "b" (Fin 5) [])
                   (fst (post_userlist (at_time 1700000000000)
                           (report "a" (Fin 3) [("skin", JNum (Inf true))])
                           (fresh_process empty_disk))))));
    reflexivity.
Defined.

(** ** C9: the event stream *)

Lemma sendCounts_readable (c : conn) (n : Node) :
  readable (userData (world n)) = true ->
  sendCounts c n
  = (res_write c (totals_json (userData (world n))) n, Returned tt).
Proof.
  intros Hr. unfold sendCounts; js_run.
  now rewrite count_players_readable.
Qed.

(** The handler, run on a store that can be read: one chunk at once,
    then the timer. *)
Lemma get_player_count_stream_readable (c : conn) (n : Node) :
  readable (userData (world n)) = true ->
  get_player_count_stream c n
  = (setInterval c 5000 (res_write c (totals_json (userData (world n))) n),
     Returned tt).
Proof.
  intros Hr. unfold get_player_count_stream; js_run.
  now rewrite sendCounts_readable.
Qed.

(** The timers that are due write one chunk each, in order, and every
    timer is looked at. *)
Lemma fire_all_readable (timers : list Interval) (n : Node) :
  readable (userData (world n)) = true ->
  fire_all timers n
  = ({| world := world n; clock := clock n; intervals := intervals n;
        wire := wire n
                ++ map (fun i => {| to := owner i; sent_at := clock n;
                                    data := totals_json (userData (world n)) |})
                     (filter (fun i => due i <=? clock n) timers);
        alive := alive n |},
     Returned (map (looked_at (clock n)) timers)).
Proof.
  revert n. induction timers as [|i rest IH]; intros n Hr.
  - simpl. rewrite app_nil_r. destruct n; reflexivity.
  - cbn [fire_all map filter]. unfold bind at 1. unfold fire; js_run.
    unfold looked_at at 1.
    destruct (due i <=? clock n) eqn:Hdue.
    + rewrite sendCounts_readable by assumption.
      rewrite IH by exact Hr.
      cbn [world clock intervals wire alive res_write map].
      rewrite <- app_assoc. reflexivity.
    + rewrite IH by exact Hr. reflexivity.
Qed.

Lemma elapse_readable (n : Node) :
  readable (userData (world n)) = true ->
  elapse n
  = ({| world := world n; clock := clock n + 1;
        intervals := map (looked_at (clock n + 1)) (intervals n);
        wire := wire n
                ++ map (fun i => {| to := owner i; sent_at := clock n + 1;
                                    data := totals_json (userData (world n)) |})
                     (filter (fun i => due i <=? clock n + 1) (intervals n));
        alive := alive n |},
     Returned tt).
Proof.
  intros Hr. unfold elapse; js_run.
  rewrite fire_all_readable by exact Hr. reflexivity.
Qed.

(** POST /userlist leaves a store that can be read. *)
Lemma post_userlist_readable (env : Env) (req_body : value) (w : World) :
  readable (userData w) = true ->
  readable (userData (fst (post_userlist env req_body w))) = true.
Proof.
  intros Hr. destruct (body_pattern req_body) as [[[userId pc] other]|e] eqn:Hb.
  - destruct (truthy userId && String.eqb (typeof userId) "string") eqn:Hok.
    + apply andb_prop in Hok as [Ht Hs]. rewrite typeof_string in Hs.
      destruct userId as [[| | |id| |]|]; try discriminate.
      assert (accepted req_body id pc other) as Hacc.
      { split; [exact Hb|]. intros ->. discriminate. }
      rewrite (post_userlist_store env _ _ _ _ w Hacc).
      apply readable_Map_set; [discriminate | exact Hr].
    + now rewrite (post_userlist_rejects env _ _ _ _ w Hb Hok).
  - unfold post_userlist; js_run. rewrite Hb. exact Hr.
Qed.

Lemma filter_owner_looked_at (c : conn) (now : Z) (timers : list Interval) :
  filter (fun i => Nat.eqb (owner i) c) (map (looked_at now) timers)
  = map (looked_at now) (filter (fun i => Nat.eqb (owner i) c) timers).
Proof.
  induction timers as [|i rest IH]; [reflexivity|].
  cbn [map filter].
  replace (owner (looked_at now i)) with (owner i)
    by (unfold looked_at; destruct (due i <=? now); reflexivity).
  destruct (Nat.eqb (owner i) c); cbn [map]; now rewrite IH.
Qed.

Lemma filter_to_chunks (c : conn) (now : Z) (payload : json)
    (due_now : Interval -> bool) (timers : list Interval) :
  filter (fun k => Nat.eqb (to k) c)
    (map (fun i => {| to := owner i; sent_at := now; data := payload |})
       (filter due_now timers))
  = map (fun i => {| to := owner i; sent_at := now; data := payload |})
      (filter due_now (filter (fun i => Nat.eqb (owner i) c) timers)).
Proof.
  induction timers as [|i rest IH]; [reflexivity|].
  cbn [filter]. destruct (due_now i) eqn:Hd, (Nat.eqb (owner i) c) eqn:Ho;
    cbn [map filter to]; rewrite ?Hd, ?Ho; cbn [map]; now rewrite IH.
Qed.

Lemma filter_owner_other (c c' : conn) (timers : list Interval) :
  c' <> c ->
  filter (fun i => Nat.eqb (owner i) c)
    (filter (fun i => negb (Nat.eqb (owner i) c')) timers)
  = filter (fun i => Nat.eqb (owner i) c) timers.
Proof.
  intros Hne. induction timers as [|i rest IH]; [reflexivity|].
  cbn [filter]. destruct (Nat.eqb_spec (owner i) c') as [Hc'|Hc'];
    cbn [negb filter].
  - destruct (Nat.eqb_spec (owner i) c); [congruence | exact IH].
  - destruct (Nat.eqb (owner i) c); now rewrite IH.
Qed.

Lemma filter_owner_self (c : conn) (timers : list Interval) :
  filter (fun i => Nat.eqb (owner i) c)
    (filter (fun i => negb (Nat.eqb (owner i) c)) timers) = [].
Proof.
  induction timers as [|i rest IH]; [reflexivity|].
  cbn [filter]. destruct (Nat.eqb (owner i) c) eqn:E; cbn [negb filter].
  - exact IH.
  - now rewrite E.
Qed.

Section Connection.

(** The connection that is followed through the turns of the loop. *)
Variable c : conn.

(** A turn of the loop that neither opens nor closes [c] keeps [c] open
    and on schedule. *)
Lemma step_keeps_open (t0 : Z) (base : list Z) (e : event) (n : Node) :
  mentions c e = false ->
  open_since c t0 base n -> open_since c t0 base (step e n).
Proof.
  intros Hm (Ha & Hr & k & Ht & Hclk & Hh).
  unfold step. rewrite Ha. destruct e as [c'|c'| |fault req_body]; cbn [mentions] in Hm.
  - rewrite get_player_count_stream_readable by exact Hr. cbn [fst].
    split; [exact Ha|]. split; [exact Hr|]. exists k.
    unfold ticking, heard in *.
    cbn [setInterval res_write intervals wire clock world alive].
    rewrite !filter_app. cbn [filter owner to]. rewrite Hm, !app_nil_r.
    auto.
  - split; [exact Ha|]. split; [exact Hr|]. exists k.
    unfold ticking, heard in *. cbn [clearInterval intervals wire clock].
    rewrite filter_owner_other by (apply Nat.eqb_neq; exact Hm). auto.
  - rewrite elapse_readable by exact Hr.
    split; [exact Ha|]. split; [exact Hr|].
    unfold ticking, heard in *. cbn [intervals wire clock world alive].
    rewrite filter_owner_looked_at, filter_app, filter_to_chunks, Ht.
    cbn [map filter due]. unfold looked_at. cbn [due owner period].
    destruct (Z.leb_spec (t0 + 5000 * (Z.of_nat k + 1)) (clock n + 1)) as [Hdue|Hdue].
    + exists (S k). rewrite map_app, Hh. cbn [map sent_at].
      split; [do 2 f_equal; lia|]. split; [lia|].
      rewrite <- app_assoc. f_equal.
      rewrite (seq_S (S k) 0), map_app. cbn [map Nat.add]. do 2 f_equal. lia.
    + exists k. rewrite app_nil_r. split; [reflexivity|]. split; [lia | exact Hh].
  - split; [exact Ha|]. split; [now apply post_userlist_readable|].
    exists k. unfold ticking, heard in *. cbn [set_world intervals wire clock]. auto.
Qed.

(** What such a turn writes on [c] carries the totals of the store as
    the turn found it. *)
Lemma step_writes_current_totals (t0 : Z) (base : list Z) (e : event) (n : Node) :
  mentions c e = false ->
  open_since c t0 base n ->
  exists written_now : list Chunk,
    heard c (step e n) = heard c n ++ written_now
    /\ Forall (fun k => data k = totals_json (userData (world n))) written_now.
Proof.
  intros Hm (Ha & Hr & k & Ht & Hclk & Hh).
  unfold step. rewrite Ha. destruct e as [c'|c'| |fault req_body]; cbn [mentions] in Hm.
  - exists []. rewrite get_player_count_stream_readable by exact Hr. cbn [fst].
    unfold heard. cbn [setInterval res_write wire].
    rewrite filter_app. cbn [filter to]. rewrite Hm. split; [reflexivity | constructor].
  - exists []. rewrite app_nil_r. split; [reflexivity | constructor].
  - rewrite elapse_readable by exact Hr.
    unfold ticking, heard in *. cbn [wire].
    rewrite filter_app, filter_to_chunks.
    eexists. split; [reflexivity|].
    apply Forall_forall. intros chunk Hin.
    apply in_map_iff in Hin as [i [<- _]]. reflexivity.
  - exists []. rewrite app_nil_r. split; [reflexivity | constructor].
Qed.

Lemma run_keeps_open (t0 : Z) (base : list Z) (events : list event)
    (n : Node) :
  existsb (mentions c) events = false ->
  open_since c t0 base n -> open_since c t0 base (run events n).
Proof.
  revert n. induction events as [|e rest IH]; intros n Hm Hopen.
  - exact Hopen.
  - cbn [existsb] in Hm. apply orb_false_elim in Hm as [He Hrest].
    cbn [run fold_left]. apply IH; [exact Hrest|].
    now apply step_keeps_open.
Qed.

(** A turn of the loop that does not open [c] writes nothing to a
    connection that has no timer, and gives it none. *)
Lemma step_keeps_silent (e : event) (n : Node) :
  opens c e = false ->
  timerless c n ->
  timerless c (step e n) /\ heard c (step e n) = heard c n.
Proof.
  intros Ho [Hr Ht]. unfold step. destruct (alive n); [|now repeat split].
  destruct e as [c'|c'| |fault req_body]; cbn [opens] in Ho.
  - rewrite get_player_count_stream_readable by exact Hr. cbn [fst].
    unfold timerless, ticking, heard in *.
    cbn [setInterval res_write intervals wire clock world alive].
    rewrite !filter_app. cbn [filter owner to]. rewrite Ho, !app_nil_r. auto.
  - unfold timerless, ticking, heard in *. cbn [clearInterval intervals wire world].
    split; [split; [exact Hr|] | reflexivity].
    destruct (Nat.eq_dec c' c) as [->|Hne].
    + apply filter_owner_self.
    + now rewrite filter_owner_other.
  - rewrite elapse_readable by exact Hr.
    unfold timerless, ticking, heard in *. cbn [intervals wire clock world alive].
    rewrite filter_owner_looked_at, filter_app, filter_to_chunks, Ht.
    cbn [map filter]. rewrite app_nil_r. auto.
  - unfold timerless, ticking, heard in *. cbn [set_world intervals wire world].
    split; [split; [now apply post_userlist_readable | exact Ht] | reflexivity].
Qed.

Lemma run_keeps_silent (events : list event) (n : Node) :
  existsb (opens c) events = false ->
  timerless c n ->
  heard c (run events n) = heard c n.
Proof.
  revert n. induction events as [|e rest IH]; intros n Ho Hq.
  - reflexivity.
  - cbn [existsb] in Ho. apply orb_false_elim in Ho as [He Hrest].
    cbn [run fold_left].
    destruct (step_keeps_silent e n He Hq) as [Hq' Hsame].
    fold (run rest (step e n)). now rewrite IH.
Qed.

End Connection.

(** C9.  A new connection to GET /player-count-stream on a running
    process whose records can be read: (1) the handler writes the first
    aggregate event on that connection within the turn of the request,
    before any time passes; (2) while the connection is open, whatever
    else happens (other connections, submissions, time), the events
    written on it are those at the time of the request and at every
    whole multiple of 5000 ms after it, one each, from a timer of its
    own; (3) once the client has gone the timer is gone, and nothing
    that follows writes on that connection again; (4) every event
    written on the open connection carries the totals of the store as
    the turn that wrote it found it. *)
Theorem C9_stream_emits_on_connect_then_every_5s_until_close (c : conn) (n : Node)
    (during after : list event) :
  alive n = true ->
  readable (userData (world n)) = true ->
  ticking c n = [] ->
  existsb (mentions c) during = false ->
  existsb (opens c) after = false ->
  let opened := step (Connect c) n in
  let still_open := run during opened in
  let closed := step (Close c) still_open in
  (clock opened = clock n
   /\ wire opened
      = wire n ++ [{| to := c; sent_at := clock n;
                      data := totals_json (userData (world n)) |}]
   /\ ticking c opened
      = [{| owner := c; period := 5000; due := clock n + 5000 |}])
  /\ (alive still_open = true
      /\ map sent_at (heard c still_open)
         = map sent_at (heard c n)
           ++ map (fun i => clock n + 5000 * Z.of_nat i)
                (seq 0 (S (Z.to_nat ((clock still_open - clock n) / 5000)))))
  /\ (ticking c closed = []
      /\ heard c (run after closed) = heard c still_open)
  /\ (forall (earlier : list event) (e : event) (later : list event),
        during = earlier ++ e :: later ->
        exists written_now : list Chunk,
          heard c (run (earlier ++ [e]) opened)
          = heard c (run earlier opened) ++ written_now
          /\ Forall (fun k => data k
                              = totals_json (userData (world (run earlier opened))))
               written_now).
Proof.
  intros Ha Hr Hnew Hduring Hafter opened still_open closed.
  assert (opened = setInterval c 5000
                     (res_write c (totals_json (userData (world n))) n)) as Hopened.
  { unfold opened, step. rewrite Ha.
    now rewrite get_player_count_stream_readable. }
  assert (ticking c opened
          = [{| owner := c; period := 5000; due := clock n + 5000 |}]) as Hticking.
  { rewrite Hopened. unfold ticking in *.
    cbn [setInterval res_write intervals clock].
    rewrite filter_app, Hnew. cbn [filter owner]. now rewrite Nat.eqb_refl. }
  assert (open_since c (clock n) (map sent_at (heard c n)) opened) as Hopen.
  { split; [rewrite Hopened; exact Ha|].
    split; [rewrite Hopened; exact Hr|].
    exists 0%nat. split; [rewrite Hticking; do 2 f_equal; lia|].
    rewrite Hopened. unfold heard.
    cbn [setInterval res_write intervals wire clock].
    split; [lia|].
    rewrite filter_app, map_app. cbn [filter to]. rewrite Nat.eqb_refl.
    cbn [map sent_at seq]. do 2 f_equal. lia. }
  split.
  { rewrite Hopened at 1 2. split; [reflexivity|]. split; [reflexivity|].
    exact Hticking. }
  destruct (run_keeps_open c _ _ during opened Hduring Hopen)
    as (Ha' & Hr' & k & Ht' & Hclk & Hh).
  fold still_open in Ha', Hr', Ht', Hclk, Hh.
  split.
  { split; [exact Ha'|]. rewrite Hh. do 3 f_equal.
    assert ((clock still_open - clock n) / 5000 = Z.of_nat k) as ->
      by (symmetry; apply Z.div_unique with (r := clock still_open - clock n - 5000 * Z.of_nat k); lia).
    now rewrite Nat2Z.id. }
  assert (timerless c closed /\ heard c closed = heard c still_open) as [Hq Hsame].
  { unfold closed, step. rewrite Ha'.
    unfold timerless, ticking, heard. cbn [clearInterval intervals wire world].
    split; [split; [exact Hr' | apply filter_owner_self] | reflexivity]. }
  split.
  { split; [apply Hq|].
    rewrite run_keeps_silent by assumption. exact Hsame. }
  intros earlier e later Hsplit.
  rewrite Hsplit, existsb_app in Hduring.
  apply orb_false_elim in Hduring as [Hearlier Hrest].
  cbn [existsb] in Hrest. apply orb_false_elim in Hrest as [He _].
  pose proof (run_keeps_open c _ _ earlier opened Hearlier Hopen) as Hthen.
  unfold run at 1. rewrite fold_left_app. cbn [fold_left].
  fold (run earlier opened).
  exact (step_writes_current_totals c _ _ e _ He Hthen).
Qed.

Lemma C9_stream_emits_on_connect_then_every_5s_until_close_witness :
  let n := idle_node 100 two_users in
  let still_open := run ten_seconds (step (Connect 1%nat) n) in
  map sent_at (heard 1%nat still_open) = [100; 5100; 10100]
  /\ heard 1%nat (run (repeat Elapse 6000) (step (Close 1%nat) still_open))
     = heard 1%nat still_open.
Proof.
  cbv zeta.
  destruct (C9_stream_emits_on_connect_then_every_5s_until_close
              1%nat (idle_node 100 two_users) ten_seconds (repeat Elapse 6000))
    as (_ & (_ & Htimes) & (_ & Hsilent) & _).
  - reflexivity.
  - reflexivity.
  - reflexivity.
  - vm_compute. reflexivity.
  - vm_compute. reflexivity.
  - split; [|exact Hsilent].
    rewrite Htimes. vm_compute. reflexivity.
Defined.

(** ** The stores the server builds

    The hypotheses above on the store ([readable], [distinct_keys],
    [user_store]) hold of every store the server builds from a first
    start, submissions, and restarts on the files it wrote. *)

Lemma user_store_readable (m : Map) :
  user_store m = true -> readable m = true.
Proof.
  intros H. apply andb_prop in H as [_ H]. now apply readable_user_store.
Qed.

Lemma user_store_Map_set (id : string) (o : object) (m : Map) :
  user_store m = true ->
  user_store (Map_set (Some (JStr id)) (Some (JObj o)) m) = true.
Proof.
  intros H. apply andb_prop in H as [Hd Hall]. unfold user_store.
  rewrite distinct_keys_Map_set by exact Hd. cbn [andb].
  induction m as [|[k v] rest IH].
  - reflexivity.
  - cbn [distinct_keys] in Hd. apply andb_prop in Hd as [_ Hd].
    cbn [forallb] in Hall. apply andb_prop in Hall as [Hkv Hall].
    cbn [Map_set]. destruct (same_value_zero k (Some (JStr id))) eqn:E.
    + cbn [forallb fst snd is_object]. rewrite Hall.
      apply andb_prop in Hkv as [Hk _]. cbn [fst] in Hk. now rewrite Hk.
    + cbn [forallb]. rewrite Hkv. now apply IH.
Qed.

Lemma first_start_is_empty (env : Env) (d : Disk) :
  user_data_file d = None ->
  userData (fst (init env (fresh_process d))) = [].
Proof.
  intros Hnone. unfold init, init_on, app_listen, ensureDataDir, fs_mkdir; js_run.
  destruct (fs_fault env) eqn:Hf.
  - rewrite loadUserData_missing_file by auto. reflexivity.
  - rewrite loadUserData_missing_file by (right; exact Hnone). reflexivity.
Qed.

Lemma user_store_post_userlist (env : Env) (req_body : value) (w : World) :
  user_store (userData w) = true ->
  user_store (userData (fst (post_userlist env req_body w))) = true.
Proof.
  intros Hus. destruct (body_pattern req_body) as [[[userId pc] other]|e] eqn:Hb.
  - destruct (truthy userId && String.eqb (typeof userId) "string") eqn:Hok.
    + apply andb_prop in Hok as [Ht Hs]. rewrite typeof_string in Hs.
      destruct userId as [[| | |id| |]|]; try discriminate.
      assert (accepted req_body id pc other) as Hacc.
      { split; [exact Hb|]. intros ->. discriminate. }
      rewrite (post_userlist_store env _ _ _ _ w Hacc).
      now apply user_store_Map_set.
    + now rewrite (post_userlist_rejects env _ _ _ _ w Hb Hok).
  - unfold post_userlist; js_run. rewrite Hb. exact Hus.
Qed.

Lemma user_store_reread (m : Map) :
  user_store m = true -> user_store (reread m) = true.
Proof.
  intros H. apply andb_prop in H as [Hd Hall]. unfold user_store.
  rewrite (distinct_keys_same_keys _ m) by now apply reread_user_store.
  rewrite Hd. cbn [andb]. clear Hd.
  induction m as [|[k v] rest IH].
  - reflexivity.
  - cbn [forallb fst snd] in Hall. apply andb_prop in Hall as [Hkv Hall].
    apply andb_prop in Hkv as [Hk Hv].
    cbn [reread map forallb fst snd]. fold (reread rest). rewrite (IH Hall).
    destruct k as [[]|]; try discriminate.
    destruct v as [[]|]; try discriminate. reflexivity.
Qed.

Lemma user_store_restart (env env' : Env) (w : World) :
  user_store (userData w) = true ->
  fs_fault env = false -> data_dir (disk w) = true ->
  fs_fault env' = false ->
  user_store (userData (restart env' (fst (saveUserData env w)))) = true.
Proof.
  intros Hus Hf Hd Hf'. rewrite restart_rereads_user_store by assumption.
  now apply user_store_reread.
Qed.

(** ** What the handlers never do *)

(** [loadUserData] returns whatever the file holds. *)
Lemma loadUserData_returns (env : Env) (w : World) :
  exists w', loadUserData env w = (w', Returned tt).
Proof.
  unfold loadUserData. unfold try_catch at 1.
  match goal with |- context [match ?m w with _ => _ end] => destruct (m w) as [w' [[]|e]] end.
  - eauto.
  - unfold console_log, modify. eauto.
Qed.

(** A request without a body ([req.body] is [undefined] or [null]) is
    answered 500: the pattern of line 55 throws inside the [try]. *)
Lemma post_userlist_without_body (env : Env) (req_body : value) (w : World) :
  req_body = None \/ req_body = Some JNull ->
  post_userlist env req_body w =
    (print "Error saving user data:" w,
     Returned (res_status_json 500 (ErrorReply "Failed to save data"))).
Proof. intros [->| ->]; reflexivity. Qed.

(** GET /player-count throws on a record that is [null]: such a record
    is never written by a submission, only read from a file made by
    hand. *)
Lemma get_player_count_null_record :
  let w := fst (init (at_time 1700000000000)
                  (fresh_process (disk_with (JArr [JArr [JStr "a"; JNull]])))) in
  userData w = [(Some (JStr "a"), Some JNull)]
  /\ snd (get_player_count w) = Thrown TypeError.
Proof. cbv zeta. split; reflexivity. Qed.

(** * Further properties of server.js *)

(** ** Bootstrap and the file helpers *)

(** X1.  Neither [mkdir] nor the data file can stop the bootstrap:
    [ensureDataDir] and [loadUserData] always return, so [init]
    always gets to [app.listen] with [PORT] (3000 when the variable is
    unset or empty).  What follows is up to [listen]: when the port is
    bound the server listens and says so on the console last, when
    [listen] throws [init] fails with that error, and when the bind
    fails nothing listens and nothing is said. *)
Theorem bootstrap_always_reaches_listen (net0 : net) (env : Env) (w : World) :
  exists w1,
    (ensureDataDir env ;; loadUserData env) w = (w1, Returned tt)
    /\ init_on net0 env w = app_listen net0 (PORT env) w1
    /\ match net0 with
       | Binds =>
           snd (init_on net0 env w) = Returned tt
           /\ listening (fst (init_on net0 env w)) = Some (PORT env)
           /\ last (console (fst (init_on net0 env w))) ""
              = ("Server running on port " ++ PORT env)%string
       | Throws => init_on net0 env w = (w1, Thrown RangeError)
       | Fails => init_on net0 env w = (w1, Returned tt)
       end
    /\ PORT {| Date_now := Date_now env; fs_fault := fs_fault env;
               env_PORT := None |} = "3000"
    /\ PORT {| Date_now := Date_now env; fs_fault := fs_fault env;
               env_PORT := Some "" |} = "3000".
Proof.
  assert (exists w0, ensureDataDir env w = (w0, Returned tt)) as [w0 Hw0].
  { unfold ensureDataDir, fs_mkdir; js_run. destruct (fs_fault env); eauto. }
  destruct (loadUserData_returns env w0) as [w1 Hw1].
  exists w1.
  assert ((ensureDataDir env ;; loadUserData env) w = (w1, Returned tt)) as Hfirst.
  { unfold bind. now rewrite Hw0, Hw1. }
  assert (init_on net0 env w = app_listen net0 (PORT env) w1) as Hinit.
  { unfold init_on. unfold bind at 1. rewrite Hw0.
    unfold bind at 1. now rewrite Hw1. }
  split; [exact Hfirst|]. split; [exact Hinit|].
  split; [|split; reflexivity].
  rewrite Hinit. destruct net0; cbn [app_listen]; js_run; cbn [fst snd].
  - cbn [listening print listen console].
    split; [reflexivity|]. split; [reflexivity | apply last_last].
  - reflexivity.
  - reflexivity.
Qed.

(** X2.  [ensureDataDir] never throws and touches neither the map nor
    the data file; a refused [mkdir] costs one console line, and once
    the directory exists a further call changes nothing. *)
Theorem ensureDataDir_is_harmless_and_idempotent (env : Env) (w : World) :
  let w1 := fst (ensureDataDir env w) in
  snd (ensureDataDir env w) = Returned tt
  /\ userData w1 = userData w
  /\ user_data_file (disk w1) = user_data_file (disk w)
  /\ data_dir (disk w1) = (if fs_fault env then data_dir (disk w) else true)
  /\ console w1
     = (if fs_fault env then console w ++ ["Error creating data directory:"]
        else console w)
  /\ ensureDataDir {| Date_now := Date_now env; fs_fault := false;
                      env_PORT := env_PORT env |}
       (fst (ensureDataDir {| Date_now := Date_now env; fs_fault := false;
                              env_PORT := env_PORT env |} w))
     = (fst (ensureDataDir {| Date_now := Date_now env; fs_fault := false;
                              env_PORT := env_PORT env |} w),
        Returned tt).
Proof.
  cbv zeta. unfold ensureDataDir, fs_mkdir; js_run.
  destruct (fs_fault env); cbn; repeat (split; [reflexivity|]); reflexivity.
Qed.

(** X3.  [saveUserData] never throws and changes nothing in memory:
    either the file now holds the text written for the whole map, or
    the disk is as it was and one line went to the console. *)
Theorem saveUserData_touches_only_the_file (env : Env) (w : World) :
  let w1 := fst (saveUserData env w) in
  snd (saveUserData env w) = Returned tt
  /\ userData w1 = userData w
  /\ listening w1 = listening w
  /\ ((user_data_file (disk w1) = Some (JSON_stringify_entries (userData w))
       /\ console w1 = console w)
      \/ (disk w1 = disk w
          /\ console w1 = console w ++ ["Error saving user data:"])).
Proof.
  cbv zeta. unfold saveUserData, fs_writeFile; js_run.
  destruct (fs_fault env || negb (data_dir (disk w))); cbn;
    repeat (split; [reflexivity|]); [right | left]; split; reflexivity.
Qed.

(** ** Loading *)

(** X4.  When the file cannot be read or is not JSON, [loadUserData]
    leaves the map exactly as it was, empty or not: the map is cleared
    only after [JSON.parse] has succeeded. *)
Theorem loadUserData_keeps_the_map_without_a_parsed_file (env : Env) (w : World) :
  fs_fault env = true
  \/ user_data_file (disk w) = None
  \/ user_data_file (disk w) = Some Malformed ->
  loadUserData env w =
    (print "No existing user data file found, starting fresh" w, Returned tt)
  /\ userData (fst (loadUserData env w)) = userData w.
Proof.
  intros [H|[H|H]].
  - rewrite loadUserData_missing_file by auto. split; reflexivity.
  - rewrite loadUserData_missing_file by auto. split; reflexivity.
  - rewrite loadUserData_syntax_error by exact H. split; reflexivity.
Qed.

Lemma loadUserData_keeps_the_map_without_a_parsed_file_witness :
  userData (fst (loadUserData (disk_failing 1700000060000) two_users))
  = userData two_users.
Proof.
  apply (loadUserData_keeps_the_map_without_a_parsed_file
           (disk_failing 1700000060000) two_users).
  left. reflexivity.
Defined.

(** The loop over the entries sees nothing of the process but the map. *)
Lemma for_each_load_entry_map_only (items : list json) (w1 w2 : World) :
  userData w1 = userData w2 ->
  userData (fst (for_each items load_entry w1))
  = userData (fst (for_each items load_entry w2))
  /\ snd (for_each items load_entry w1) = snd (for_each items load_entry w2).
Proof.
  revert w1 w2. induction items as [|entry rest IH]; intros w1 w2 Hm.
  - split; [exact Hm | reflexivity].
  - cbn [for_each]. set (loop := for_each rest load_entry) in *.
    unfold load_entry; js_run.
    destruct (pair_pattern entry) as [ids|e].
    + apply IH. cbn [userData set_userData]. now rewrite Hm.
    + split; [exact Hm | reflexivity].
Qed.

(** X5.  When the file is read and is JSON, what [loadUserData] leaves
    in the map depends on the file alone: whatever the map held before
    is forgotten. *)
Theorem loadUserData_forgets_the_previous_map (env : Env) (w1 w2 : World) (j : json) :
  fs_fault env = false ->
  user_data_file (disk w1) = Some (Denotes j) ->
  user_data_file (disk w2) = Some (Denotes j) ->
  userData (fst (loadUserData env w1)) = userData (fst (loadUserData env w2)).
Proof.
  intros Hf H1 H2.
  destruct j as [| | | |items|o];
    try (rewrite (loadUserData_not_an_array env w1 _ Hf H1 I),
                 (loadUserData_not_an_array env w2 _ Hf H2 I); reflexivity).
  rewrite (loadUserData_array env w1 items Hf H1),
          (loadUserData_array env w2 items Hf H2).
  destruct (for_each_load_entry_map_only items
              (set_userData (fun _ => []) w1) (set_userData (fun _ => []) w2)
              eq_refl) as [Hm Ho].
  destruct (for_each items load_entry (set_userData (fun _ => []) w1))
    as [w1' [[]|e1]],
           (for_each items load_entry (set_userData (fun _ => []) w2))
    as [w2' [[]|e2]]; cbn [fst snd] in *; try discriminate; exact Hm.
Qed.

Lemma loadUserData_forgets_the_previous_map_witness :
  userData (fst (loadUserData (at_time 1700000060000)
                   (set_disk (fun _ => disk_with (JArr [JArr [JStr "z"; JObj []]]))
                      two_users)))
  = userData (fst (loadUserData (at_time 1700000060000)
                     (fresh_process (disk_with (JArr [JArr [JStr "z"; JObj []]]))))).
Proof.
  apply (loadUserData_forgets_the_previous_map (at_time 1700000060000) _ _
           (JArr [JArr [JStr "z"; JObj []]]));
    reflexivity.
Defined.

Lemma for_each_load_entry_distinct (items : list json) (w : World) :
  distinct_keys (userData w) = true ->
  distinct_keys (userData (fst (for_each items load_entry w))) = true.
Proof.
  revert w. induction items as [|entry rest IH]; intros w Hd.
  - exact Hd.
  - cbn [for_each]. set (loop := for_each rest load_entry) in *.
    unfold load_entry; js_run.
    destruct (pair_pattern entry) as [ids|e]; [|exact Hd].
    apply IH. cbn [userData set_userData]. now apply distinct_keys_Map_set.
Qed.

(** X6.  The map never holds a key twice: POST /userlist, [loadUserData]
    and the whole bootstrap keep it so, whatever the request and the
    file are. *)
Theorem no_operation_duplicates_a_key (env : Env) (req_body : value) (w : World) :
  distinct_keys (userData w) = true ->
  distinct_keys (userData (fst (post_userlist env req_body w))) = true
  /\ distinct_keys (userData (fst (loadUserData env w))) = true
  /\ distinct_keys (userData (fst (init env w))) = true.
Proof.
  intros Hd.
  assert (forall w0, distinct_keys (userData w0) = true ->
                     distinct_keys (userData (fst (loadUserData env w0))) = true)
    as Hload.
  { intros w0 Hd0. destruct (fs_fault env) eqn:Hf.
    - now rewrite loadUserData_missing_file by auto.
    - destruct (user_data_file (disk w0)) as [[|j]|] eqn:Hfile.
      + now rewrite loadUserData_syntax_error.
      + destruct j as [| | | |items|o];
          try (rewrite (loadUserData_not_an_array env w0 _ Hf Hfile I); reflexivity).
        rewrite (loadUserData_array env w0 items Hf Hfile).
        pose proof (for_each_load_entry_distinct items
                      (set_userData (fun _ => []) w0) eq_refl) as Hdist.
        destruct (for_each items load_entry (set_userData (fun _ => []) w0))
          as [w' [[]|e]]; exact Hdist.
      + now rewrite loadUserData_missing_file by auto. }
  split; [|split; [now apply Hload|]].
  - destruct (body_pattern req_body) as [[[userId pc] other]|e] eqn:Hb.
    + destruct (truthy userId && String.eqb (typeof userId) "string") eqn:Hok.
      * apply andb_prop in Hok as [Ht Hs]. rewrite typeof_string in Hs.
        destruct userId as [[| | |id| |]|]; try discriminate.
        assert (accepted req_body id pc other) as Hacc.
        { split; [exact Hb|]. intros ->. discriminate. }
        rewrite (post_userlist_store env _ _ _ _ w Hacc).
        now apply distinct_keys_Map_set.
      * now rewrite (post_userlist_rejects env _ _ _ _ w Hb Hok).
    + unfold post_userlist; js_run. rewrite Hb. exact Hd.
  - unfold init, init_on, app_listen. unfold bind at 1.
    assert (exists w1, ensureDataDir env w = (w1, Returned tt)
                       /\ userData w1 = userData w) as [w1 [-> Hsame]].
    { unfold ensureDataDir, fs_mkdir; js_run. destruct (fs_fault env); eauto. }
    unfold bind at 1.
    pose proof (Hload w1) as Hw1. rewrite Hsame in Hw1. specialize (Hw1 Hd).
    destruct (loadUserData_returns env w1) as [w2 Hw2]. rewrite Hw2 in *.
    js_run. exact Hw1.
Qed.

Lemma no_operation_duplicates_a_key_witness :
  distinct_keys
    (userData (fst (post_userlist (at_time 1700000060000)
                      (report "a" (Fin 7) []) two_users))) = true.
Proof.
  apply (no_operation_duplicates_a_key (at_time 1700000060000)
           (report "a" (Fin 7) []) two_users).
  reflexivity.
Defined.

(** ** Save, restart, load *)

(** Induction over JSON trees. *)
Lemma json_tree_ind (P : json -> Prop) :
  P JNull ->
  (forall b, P (JBool b)) ->
  (forall n, P (JNum n)) ->
  (forall s, P (JStr s)) ->
  (forall items, Forall P items -> P (JArr items)) ->
  (forall o, Forall (fun kv => P (snd kv)) o -> P (JObj o)) ->
  forall j, P j.
Proof.
  intros HN HB HNum HS HA HO. fix IH 1.
  intros [|b|n|s|items|o];
    [exact HN | apply HB | apply HNum | apply HS | |].
  - apply HA. revert items. fix IHl 1. intros [|a l]; constructor.
    + apply IH.
    + apply IHl.
  - apply HO. revert o. fix IHo 1. intros [|[k v] l]; constructor.
    + apply IH.
    + apply IHo.
Qed.

(** A tree without infinite numbers is written as it is. *)
Lemma written_finite (j : json) :
  finite_json j = true -> written j = j.
Proof.
  induction j as [|b|[|s m e|p]|s|items IH|o IH] using json_tree_ind;
    cbn [finite_json written]; intros Hfin; try reflexivity; try discriminate.
  - f_equal. induction IH as [|a l Ha _ IHl]; [reflexivity|].
    cbn [forallb] in Hfin. apply andb_prop in Hfin as [H1 H2].
    cbn [map]. now rewrite Ha, IHl.
  - f_equal. induction IH as [|[k v] l Ha _ IHl]; [reflexivity|].
    cbn [forallb snd] in Hfin. apply andb_prop in Hfin as [H1 H2].
    cbn [map fst snd] in *. now rewrite Ha, IHl.
Qed.

(** Writing what was written changes nothing more. *)
Lemma written_idempotent (j : json) : written (written j) = written j.
Proof.
  induction j as [|b|[|s m e|p]|s|items IH|o IH] using json_tree_ind;
    cbn [written]; try reflexivity.
  - f_equal. induction IH as [|a l Ha _ IHl]; [reflexivity|].
    cbn [map]. now rewrite Ha, IHl.
  - f_equal. induction IH as [|[k v] l Ha _ IHl]; [reflexivity|].
    cbn [map fst snd] in *. now rewrite Ha, IHl.
Qed.

Lemma reread_finite_user_store (m : Map) :
  forallb (fun kv => is_string (fst kv) && is_object (snd kv)) m = true ->
  finite_store m = true ->
  reread m = m.
Proof.
  induction m as [|[k v] rest IH]; intros Hall Hfin.
  - reflexivity.
  - cbn [forallb fst snd finite_store] in Hall, Hfin.
    apply andb_prop in Hall as [Hkv Hall]. apply andb_prop in Hkv as [Hk Hv].
    apply andb_prop in Hfin as [Hj Hfin].
    cbn [reread map fst snd]. fold (reread rest). rewrite (IH Hall Hfin).
    destruct k as [[| | |s| |]|]; try discriminate.
    destruct v as [j|]; try discriminate.
    cbn [written_item written]. now rewrite (written_finite j Hj).
Qed.

(** The whole process after a save that succeeds and a restart that
    reads the file, for a store of user records. *)
Lemma restart_after_save (env env' : Env) (w : World) :
  user_store (userData w) = true ->
  fs_fault env = false -> data_dir (disk w) = true ->
  fs_fault env' = false ->
  restart env' (fst (saveUserData env w))
  = {| userData := reread (userData w);
       disk := {| data_dir := true;
                  user_data_file := Some (JSON_stringify_entries (userData w)) |};
       console :=
         [("Loaded " ++ index_key (List.length (userData w)) ++ " users from file")%string;
          ("Server running on port " ++ PORT env')%string];
       listening := Some (PORT env') |}.
Proof.
  intros Hus Hf Hd Hf'. apply andb_prop in Hus as [Hdist Hobj].
  rewrite saveUserData_writes by assumption. cbn [fst].
  unfold restart, init, init_on, app_listen, ensureDataDir, fs_mkdir. rewrite Hf'. js_run.
  erewrite loadUserData_array; [|exact Hf'|reflexivity].
  rewrite for_each_load_entry_written.
  unfold print, listen, set_userData, set_disk, fresh_process.
  cbn [fst userData disk console listening data_dir user_data_file app].
  assert (fold_left (fun acc kv => Map_set (fst kv) (snd kv) acc)
            (reread (userData w)) [] = reread (userData w)) as ->.
  { apply (fold_Map_set_distinct (reread (userData w)) []).
    cbn [app]. rewrite (distinct_keys_same_keys _ (userData w)); auto.
    now apply reread_user_store. }
  replace (List.length (reread (userData w))) with (List.length (userData w))
    by (unfold reread; now rewrite length_map).
  reflexivity.
Qed.

(** The whole bootstrap on the disk a successful save leaves, for a
    store of user records and whatever [listen] meets. *)
Lemma boot_after_save (net0 : net) (env env' : Env) (w : World) :
  user_store (userData w) = true ->
  fs_fault env = false -> data_dir (disk w) = true ->
  fs_fault env' = false ->
  let reborn := fst (init_on net0 env'
                       (fresh_process (disk (fst (saveUserData env w))))) in
  userData reborn = reread (userData w)
  /\ hd "" (console reborn)
     = ("Loaded " ++ index_key (List.length (userData w)) ++ " users from file")%string
  /\ listening reborn
     = match net0 with Binds => Some (PORT env') | Throws | Fails => None end.
Proof.
  intros Hus Hf Hd Hf' reborn. unfold reborn.
  apply andb_prop in Hus as [Hdist Hobj].
  rewrite saveUserData_writes by assumption. cbn [fst].
  unfold init_on, ensureDataDir, fs_mkdir. rewrite Hf'. js_run.
  erewrite loadUserData_array; [|exact Hf'|reflexivity].
  rewrite for_each_load_entry_written.
  assert (fold_left (fun acc kv => Map_set (fst kv) (snd kv) acc)
            (reread (userData w)) [] = reread (userData w)) as Hfold.
  { apply (fold_Map_set_distinct (reread (userData w)) []).
    cbn [app]. rewrite (distinct_keys_same_keys _ (userData w)); auto.
    now apply reread_user_store. }
  assert (List.length (reread (userData w)) = List.length (userData w)) as Hlen
    by (unfold reread; now rewrite length_map).
  destruct net0; cbn [app_listen]; js_run;
    unfold print, listen, set_userData, set_disk, fresh_process;
    cbn [fst userData disk console listening data_dir user_data_file app hd];
    rewrite Hfold, Hlen; repeat split.
Qed.

(** X7.  Save and load are a round trip on stores of user records
    without infinite numbers: after a save that succeeds, a restarted
    process that reads the file holds exactly the same map, in the
    same order, and first reports the number of users it loaded; it
    listens when, and only when, [listen] binds the port. *)
Theorem restart_restores_a_finite_user_store (net0 : net) (env env' : Env)
    (w : World) :
  user_store (userData w) = true ->
  finite_store (userData w) = true ->
  fs_fault env = false -> data_dir (disk w) = true ->
  fs_fault env' = false ->
  let reborn := fst (init_on net0 env'
                       (fresh_process (disk (fst (saveUserData env w))))) in
  userData reborn = userData w
  /\ hd "" (console reborn)
     = ("Loaded " ++ index_key (List.length (userData w)) ++ " users from file")%string
  /\ listening reborn
     = match net0 with Binds => Some (PORT env') | Throws | Fails => None end.
Proof.
  intros Hus Hfin Hf Hd Hf' reborn.
  destruct (boot_after_save net0 env env' w Hus Hf Hd Hf') as (Hm & Hc & Hl).
  fold reborn in Hm, Hc, Hl.
  apply andb_prop in Hus as [_ Hobj].
  rewrite reread_finite_user_store in Hm by assumption.
  repeat split; assumption.
Qed.

Lemma restart_restores_a_finite_user_store_witness :
  userData (fst (init_on Fails (at_time 1700000060000)
                   (fresh_process
                      (disk (fst (saveUserData (at_time 1700000030000) two_users))))))
  = userData two_users.
Proof.
  apply (restart_restores_a_finite_user_store Fails
           (at_time 1700000030000) (at_time 1700000060000) two_users);
    reflexivity.
Defined.

Lemma written_item_reread (m : Map) :
  map (fun kv => JArr [written_item (fst kv); written_item (snd kv)]) (reread m)
  = map (fun kv => JArr [written_item (fst kv); written_item (snd kv)]) m.
Proof.
  induction m as [|[k v] rest IH]; [reflexivity|].
  cbn [reread map fst snd]. fold (reread rest). rewrite IH.
  do 2 f_equal.
  destruct k as [k|], v as [v|]; cbn [written_item written];
    now rewrite ?written_idempotent.
Qed.

(** X8.  The file is stable: for a store of user records, saving,
    restarting on the file and saving again writes the same text as the
    first save, also when the first save had to write [null] for an
    infinite number. *)
Theorem saved_file_is_stable_across_restart (env env' env'' : Env) (w : World) :
  user_store (userData w) = true ->
  fs_fault env = false -> data_dir (disk w) = true ->
  fs_fault env' = false -> fs_fault env'' = false ->
  let saved := fst (saveUserData env w) in
  let saved_again := fst (saveUserData env'' (restart env' saved)) in
  user_data_file (disk saved) = Some (JSON_stringify_entries (userData w))
  /\ user_data_file (disk saved_again) = user_data_file (disk saved).
Proof.
  intros Hus Hf Hd Hf' Hf'' saved saved_again.
  unfold saved_again, saved.
  rewrite restart_after_save by assumption.
  rewrite !saveUserData_writes by (assumption || reflexivity).
  cbn [fst disk set_disk user_data_file userData].
  split; [reflexivity|].
  unfold JSON_stringify_entries. now rewrite written_item_reread.
Qed.

Lemma saved_file_is_stable_across_restart_witness :
  let w := fst (post_userlist (at_time 1700000000000)
                  (report "a" (Inf true) []) (fresh_process empty_disk)) in
  let saved := fst (saveUserData (at_time 1700000030000) w) in
  user_data_file
    (disk (fst (saveUserData (at_time 1700000090000)
                  (restart (at_time 1700000060000) saved))))
  = user_data_file (disk saved).
Proof.
  cbv zeta.
  apply (saved_file_is_stable_across_restart
           (at_time 1700000030000) (at_time 1700000060000) (at_time 1700000090000)
           (fst (post_userlist (at_time 1700000000000)
                   (report "a" (Inf true) []) (fresh_process empty_disk))));
    reflexivity.
Defined.

(** ** Submissions *)

(** X9.  After an accepted submission handled with a working file
    system, the file holds the text written for the map as it now is
    in memory, and nothing was logged. *)
Theorem accepted_submission_leaves_file_in_step_with_memory (env : Env)
    (req_body : value) (id : string) (playerCount : value) (otherData : object)
    (w : World) :
  accepted req_body id playerCount otherData ->
  fs_fault env = false -> data_dir (disk w) = true ->
  let w' := fst (post_userlist env req_body w) in
  user_data_file (disk w') = Some (JSON_stringify_entries (userData w'))
  /\ console w' = console w
  /\ snd (post_userlist env req_body w)
     = Returned (res_json (SavedReply true "Data saved successfully")).
Proof.
  intros Hacc Hf Hd. cbv zeta.
  rewrite (post_userlist_accepts env _ _ _ _ w Hacc).
  rewrite saveUserData_writes by assumption.
  cbn [fst snd]. repeat split.
Qed.

Lemma accepted_submission_leaves_file_in_step_with_memory_witness :
  let w' := fst (post_userlist (at_time 1700000060000)
                   (report "c" (Fin 1) []) two_users) in
  user_data_file (disk w') = Some (JSON_stringify_entries (userData w')).
Proof.
  cbv zeta.
  apply (accepted_submission_leaves_file_in_step_with_memory
           (at_time 1700000060000) (report "c" (Fin 1) []) "c"
           (Some (JNum (Fin 1))) [] two_users).
  - split; [reflexivity | discriminate].
  - reflexivity.
  - reflexivity.
Defined.

Lemma Map_get_set_other (k k0 v : value) (m : Map) :
  same_value_zero k k0 = false ->
  Map_get k (Map_set k0 v m) = Map_get k m.
Proof.
  intros Hne. induction m as [|[k' v'] rest IH].
  - cbn [Map_set Map_get]. now rewrite same_value_zero_sym, Hne.
  - cbn [Map_set]. destruct (same_value_zero k' k0) eqn:E.
    + apply same_value_zero_eq in E. subst k'.
      cbn [Map_get]. now rewrite same_value_zero_sym, Hne.
    + cbn [Map_get]. now rewrite IH.
Qed.

Lemma keys_Map_set (k v : value) (m : Map) :
  same_value_zero k k = true ->
  map fst (Map_set k v m)
  = if Map_has k m then map fst m else map fst m ++ [k].
Proof.
  intros Hkk. unfold Map_has. induction m as [|[k' v'] rest IH].
  - reflexivity.
  - cbn [Map_set existsb fst]. destruct (same_value_zero k' k) eqn:E.
    + reflexivity.
    + cbn [map fst orb]. rewrite IH.
      destruct (existsb _ rest); reflexivity.
Qed.

(** X10.  An accepted submission for one user leaves every other
    user's record as it was and keeps the order of the users: a known
    id stays in its place, a new id goes last. *)
Theorem submission_leaves_other_users_alone (env : Env) (req_body : value)
    (id : string) (playerCount : value) (otherData : object) (w : World) :
  accepted req_body id playerCount otherData ->
  let m' := userData (fst (post_userlist env req_body w)) in
  (forall k : value,
     same_value_zero k (Some (JStr id)) = false ->
     Map_get k m' = Map_get k (userData w))
  /\ map fst m'
     = (if Map_has (Some (JStr id)) (userData w)
        then map fst (userData w)
        else map fst (userData w) ++ [Some (JStr id)])
  /\ List.length m'
     = (if Map_has (Some (JStr id)) (userData w)
        then List.length (userData w)
        else S (List.length (userData w))).
Proof.
  intros Hacc. cbv zeta. rewrite (post_userlist_store env _ _ _ _ w Hacc).
  split; [intros k Hk; now apply Map_get_set_other|].
  assert (map fst (Map_set (Some (JStr id))
                     (Some (new_record env playerCount otherData)) (userData w))
          = (if Map_has (Some (JStr id)) (userData w)
             then map fst (userData w)
             else map fst (userData w) ++ [Some (JStr id)])) as Hkeys
    by (apply keys_Map_set, same_value_zero_refl_string).
  split; [exact Hkeys|].
  rewrite <- (length_map fst), Hkeys.
  destruct (Map_has (Some (JStr id)) (userData w)).
  - apply length_map.
  - rewrite length_app, length_map. cbn [List.length]. lia.
Qed.

Lemma submission_leaves_other_users_alone_witness :
  Map_get (Some (JStr "b"))
    (userData (fst (post_userlist (at_time 1700000060000)
                      (report "a" (Fin 7) []) two_users)))
  = Map_get (Some (JStr "b")) (userData two_users).
Proof.
  destruct (submission_leaves_other_users_alone (at_time 1700000060000)
              (report "a" (Fin 7) []) "a" (Some (JNum (Fin 7))) [] two_users)
    as [Hothers _].
  - split; [reflexivity | discriminate].
  - apply Hothers. reflexivity.
Defined.

(** X11.  POST /userlist always answers, and in one of three ways: 500
    when there is no body to take apart (the map is untouched), 400 when
    [userId] is not a non-empty string (nothing at all is touched), and
    the 200 acknowledgment otherwise, whether or not the data reached
    the file. *)
Theorem post_userlist_answers_in_one_of_three_ways (env : Env) (req_body : value)
    (w : World) :
  (snd (post_userlist env req_body w)
   = Returned (res_status_json 500 (ErrorReply "Failed to save data"))
   /\ (req_body = None \/ req_body = Some JNull)
   /\ userData (fst (post_userlist env req_body w)) = userData w)
  \/ (post_userlist env req_body w
      = (w, Returned (res_status_json 400 (ErrorReply "Missing or invalid userId")))
      /\ exists userId playerCount otherData,
           body_pattern req_body = Returned (userId, playerCount, otherData)
           /\ truthy userId && is_string userId = false)
  \/ (snd (post_userlist env req_body w)
      = Returned (res_json (SavedReply true "Data saved successfully"))
      /\ exists id playerCount otherData,
           accepted req_body id playerCount otherData).
Proof.
  destruct (body_pattern req_body) as [[[userId pc] other]|e] eqn:Hb.
  - destruct (truthy userId && String.eqb (typeof userId) "string") eqn:Hok.
    + right. right.
      apply andb_prop in Hok as [Ht Hs]. rewrite typeof_string in Hs.
      destruct userId as [[| | |id| |]|]; try discriminate.
      assert (accepted req_body id pc other) as Hacc.
      { split; [exact Hb|]. intros ->. discriminate. }
      rewrite (post_userlist_accepts env _ _ _ _ w Hacc). eauto.
    + right. left. split.
      * now apply (post_userlist_rejects env _ _ _ _ w Hb).
      * exists userId, pc, other. rewrite <- typeof_string. auto.
  - left. destruct req_body as [[]|]; try discriminate;
      (split; [reflexivity|]); split; auto.
Qed.

(** ** The aggregate *)

Lemma for_each_add_user_keeps_locals_equal (users : list value)
    (locals : number * number) :
  fst locals = snd locals ->
  fst (fst (for_each users add_user locals))
  = snd (fst (for_each users add_user locals)).
Proof.
  revert locals. induction users as [|user rest IH]; intros locals Heq.
  - exact Heq.
  - cbn [for_each]. set (loop := for_each rest add_user) in *.
    unfold add_user; js_run.
    destruct (get_playerCount user) as [pc|e]; [|exact Heq].
    destruct (truthy pc && String.eqb (typeof pc) "number").
    + apply IH. cbn [fst snd]. now rewrite Heq.
    + apply IH. exact Heq.
Qed.

(** X12.  Whatever the store holds, when GET /player-count answers,
    [current] and [total] are the same number; and the handler leaves
    the process as it found it, also when it throws. *)
Theorem current_and_total_never_differ (w : World) (current total : number) :
  snd (get_player_count w) = Returned (res_json (CountsReply current total)) ->
  current = total /\ fst (get_player_count w) = w.
Proof.
  unfold get_player_count; js_run. unfold count_players.
  pose proof (for_each_add_user_keeps_locals_equal
                (map snd (userData w)) (Num (Fin 0), Num (Fin 0)) eq_refl) as Heq.
  destruct (for_each (map snd (userData w)) add_user (Num (Fin 0), Num (Fin 0)))
    as [[c t] [[]|e]]; cbn [fst snd] in *; intros H; [|discriminate].
  injection H as <- <-. split; [exact Heq | reflexivity].
Qed.

Lemma current_and_total_never_differ_witness :
  Num (Fin 8) = Num (Fin 8) /\ fst (get_player_count two_users) = two_users.
Proof.
  apply (current_and_total_never_differ two_users (Num (Fin 8)) (Num (Fin 8))).
  reflexivity.
Defined.

Lemma Map_has_false_absent (k : value) (m : Map) :
  Map_has k m = false ->
  forallb (fun kv => negb (same_value_zero (fst kv) k)) m = true.
Proof.
  unfold Map_has. induction m as [|[k' v'] rest IH]; intros H.
  - reflexivity.
  - cbn [existsb fst] in H. apply orb_false_elim in H as [Hk Hrest].
    cbn [forallb fst]. now rewrite Hk, IH.
Qed.

Lemma readable_app (m1 m2 : Map) :
  readable (m1 ++ m2) = readable m1 && readable m2.
Proof. unfold readable. apply forallb_app. Qed.

(** X13.  The first accepted submission of a user adds that user's
    count to the aggregate as the last addend of the sum of doubles:
    the sum becomes the former sum plus the submitted [playerCount]
    (plus 0 when none was submitted or it is not a number), and the
    client of GET /player-count receives it in both fields, as [null]
    when it is not finite. *)
Theorem first_submission_adds_its_count (env : Env) (req_body : value)
    (id : string) (playerCount : value) (otherData : object) (w : World) :
  readable (userData w) = true ->
  Map_has (Some (JStr id)) (userData w) = false ->
  accepted req_body id playerCount otherData ->
  let w' := fst (post_userlist env req_body w) in
  let sum' := plus (sum_of_counts (userData w))
                   (as_number (Some (submitted_count playerCount))) in
  sum_of_counts (userData w') = sum'
  /\ exists r : response,
       snd (get_player_count w') = Returned r
       /\ status r = 200
       /\ sent (body r)
          = JObj [("current", written_number sum'); ("total", written_number sum')].
Proof.
  intros Hr Hnew Hacc. cbv zeta.
  assert (userData (fst (post_userlist env req_body w))
          = userData w
            ++ [(Some (JStr id), Some (new_record env playerCount otherData))])
    as Hstore.
  { rewrite (post_userlist_store env _ _ _ _ w Hacc).
    now apply Map_set_absent, Map_has_false_absent. }
  assert (sum_of_counts (userData (fst (post_userlist env req_body w)))
          = plus (sum_of_counts (userData w))
                 (as_number (Some (submitted_count playerCount)))) as Hsum.
  { rewrite Hstore. unfold sum_of_counts.
    rewrite map_app, filter_app, map_app, fold_left_app. cbn [map snd filter].
    destruct Hacc as [Hb _].
    rewrite (new_record_playerCount env _ _ _ _ Hb).
    destruct playerCount as [[| |n| | |]|]; reflexivity. }
  split; [exact Hsum|].
  eexists. unfold get_player_count; js_run.
  rewrite count_players_readable
    by (rewrite Hstore, readable_app, Hr; reflexivity).
  cbn [fst snd]. split; [reflexivity|]. split; [reflexivity|].
  cbn [body res_json sent]. now rewrite Hsum.
Qed.

Lemma first_submission_adds_its_count_witness :
  sum_of_counts
    (userData (fst (post_userlist (at_time 1700000060000)
                      (report "c" (Fin 4) []) two_users)))
  = Num (Fin 12).
Proof.
  destruct (first_submission_adds_its_count (at_time 1700000060000)
              (report "c" (Fin 4) []) "c" (Some (JNum (Fin 4))) [] two_users)
    as [Hsum _].
  - reflexivity.
  - reflexivity.
  - split; [reflexivity | discriminate].
  - rewrite Hsum. vm_compute. reflexivity.
Defined.

(** ** The stored record *)

(** X14.  Extra fields pass through: every field of an accepted body
    other than [userId] and [playerCount] is stored in the record with
    the value the client sent ([lastUpdated] included), and [userId]
    itself is not stored in the record. *)
Theorem extra_fields_are_stored_as_sent (env : Env) (req_body : value)
    (id : string) (playerCount : value) (otherData : object) (w : World) :
  accepted req_body id playerCount otherData ->
  unique_names otherData = true ->
  exists fields,
    Map_get (Some (JStr id)) (userData (fst (post_userlist env req_body w)))
    = Some (Some (JObj fields))
    /\ (forall (field : string) (v : json),
          obj_get field otherData = Some v -> obj_get field fields = Some v)
    /\ obj_get "userId" fields = None.
Proof.
  intros Hacc Hu.
  exists (spread otherData
            [("playerCount", count_or_zero playerCount);
             ("lastUpdated", JNum (Fin (Date_now env)))]).
  rewrite (post_userlist_store env _ _ _ _ w Hacc), Map_get_set_same.
  split; [reflexivity|]. split.
  - intros field v Hget. now apply obj_get_spread_unique.
  - destruct Hacc as [Hb _]. destruct (body_pattern_rest _ _ _ _ Hb) as [_ Hid].
    now rewrite obj_get_spread_absent.
Qed.

Lemma extra_fields_are_stored_as_sent_witness :
  exists fields,
    Map_get (Some (JStr "a"))
      (userData (fst (post_userlist (at_time 1700000060000)
                        (report "a" (Fin 7)
                           [("skin", JStr "tabby"); ("lastUpdated", JNull)])
                        two_users)))
    = Some (Some (JObj fields))
    /\ obj_get "skin" fields = Some (JStr "tabby")
    /\ obj_get "lastUpdated" fields = Some JNull.
Proof.
  destruct (extra_fields_are_stored_as_sent (at_time 1700000060000)
              (report "a" (Fin 7) [("skin", JStr "tabby"); ("lastUpdated", JNull)])
              "a" (Some (JNum (Fin 7)))
              [("skin", JStr "tabby"); ("lastUpdated", JNull)] two_users)
    as [fields [Hget [Hpass _]]].
  - split; [reflexivity | discriminate].
  - reflexivity.
  - exists fields. split; [exact Hget|].
    split; apply Hpass; reflexivity.
Defined.

(** ** Bodies that are not objects *)

(** The name of an array index is written in digits: it is neither
    [userId] nor [playerCount]. *)
Lemma index_key_is_no_field_name (i : nat) :
  index_key i <> "userId" /\ index_key i <> "playerCount".
Proof.
  unfold index_key.
  split; intros H;
    pose proof (NilEmpty.usu (Nat.to_uint i)) as Husu;
    rewrite H in Husu; discriminate.
Qed.

Lemma obj_get_indexed_field (items : list json) :
  obj_get "userId" (indexed items) = None.
Proof.
  unfold indexed. generalize 0%nat as start.
  induction items as [|j rest IH]; intros start.
  - reflexivity.
  - cbn [List.length seq map combine obj_get].
    destruct (String.eqb_spec (index_key start) "userId") as [Heq|_].
    + now apply index_key_is_no_field_name in Heq.
    + apply IH.
Qed.

(** X15.  A body that is a JSON array, string, number or boolean has
    no [userId]: POST /userlist answers 400 and touches nothing. *)
Theorem body_that_is_no_object_is_rejected (env : Env) (j : json) (w : World) :
  match j with JNull | JObj _ => False | _ => True end ->
  post_userlist env (Some j) w =
    (w, Returned (res_status_json 400 (ErrorReply "Missing or invalid userId"))).
Proof.
  intros Hj.
  assert (obj_get "userId" (own_props j) = None) as Hnone.
  { destruct j as [| | | |items|o]; try contradiction; try reflexivity;
      apply obj_get_indexed_field. }
  apply (post_userlist_rejects env (Some j)
           (obj_get "userId" (own_props j))
           (obj_get "playerCount" (own_props j))
           (omit ["userId"; "playerCount"] (own_props j)) w).
  - destruct j; try contradiction; reflexivity.
  - now rewrite Hnone.
Qed.

Lemma body_that_is_no_object_is_rejected_witness :
  post_userlist (at_time 1700000060000)
    (Some (JArr [JStr "a"; JNum (Fin 3)])) two_users
  = (two_users,
     Returned (res_status_json 400 (ErrorReply "Missing or invalid userId"))).
Proof.
  apply (body_that_is_no_object_is_rejected (at_time 1700000060000)
           (JArr [JStr "a"; JNum (Fin 3)]) two_users).
  exact I.
Defined.

(** ** Timers of the stream *)

Lemma filter_keeps_all_without_owner (c : conn) (timers : list Interval) :
  filter (fun i => Nat.eqb (owner i) c) timers = [] ->
  filter (fun i => negb (Nat.eqb (owner i) c)) timers = timers.
Proof.
  induction timers as [|i rest IH]; intros Hnone.
  - reflexivity.
  - cbn [filter] in *. destruct (Nat.eqb (owner i) c); [discriminate|].
    cbn [negb]. now rewrite IH.
Qed.

(** X16.  A connection costs one timer while it is open and none
    afterwards: connecting and closing a new connection leaves the list
    of timers as it was, with one chunk written, and closing a
    connection never touches the timer of another. *)
Theorem connection_owns_exactly_its_timer (c c' : conn) (n : Node) :
  alive n = true ->
  readable (userData (world n)) = true ->
  ticking c n = [] ->
  c' <> c ->
  intervals (step (Connect c) n)
  = intervals n ++ [{| owner := c; period := 5000; due := clock n + 5000 |}]
  /\ intervals (step (Close c) (step (Connect c) n)) = intervals n
  /\ List.length (wire (step (Close c) (step (Connect c) n)))
     = S (List.length (wire n))
  /\ ticking c' (step (Close c) n) = ticking c' n.
Proof.
  intros Ha Hr Hnew Hne.
  assert (step (Connect c) n
          = setInterval c 5000 (res_write c (totals_json (userData (world n))) n))
    as Hopened.
  { unfold step. rewrite Ha. now rewrite get_player_count_stream_readable. }
  rewrite Hopened. split; [reflexivity|].
  unfold step at 1 2 3. cbn [setInterval res_write alive]. rewrite Ha.
  cbn [clearInterval setInterval res_write intervals wire clock].
  split; [|split].
  - rewrite filter_app. cbn [filter owner]. rewrite Nat.eqb_refl. cbn [negb].
    rewrite app_nil_r. now apply filter_keeps_all_without_owner.
  - rewrite length_app. cbn [List.length]. lia.
  - unfold ticking. cbn [intervals]. now apply filter_owner_other.
Qed.

Lemma connection_owns_exactly_its_timer_witness :
  intervals (step (Close 1%nat) (step (Connect 1%nat) (idle_node 100 two_users)))
  = intervals (idle_node 100 two_users).
Proof.
  apply (connection_owns_exactly_its_timer 1%nat 2%nat (idle_node 100 two_users)).
  - reflexivity.
  - reflexivity.
  - reflexivity.
  - discriminate.
Defined.

(** X17.  On a store with a record that cannot be read, the stream
    handler throws in its first [sendCounts]: nothing is written and no
    timer is started. *)
Theorem stream_on_unreadable_store_starts_nothing (c : conn) (n : Node) (e : exn) :
  count_players (userData (world n)) = Thrown e ->
  get_player_count_stream c n = (n, Thrown e)
  /\ step (Connect c) n = n.
Proof.
  intros Hthrow.
  assert (get_player_count_stream c n = (n, Thrown e)) as Hrun.
  { unfold get_player_count_stream, sendCounts; js_run. now rewrite Hthrow. }
  split; [exact Hrun|].
  unfold step. rewrite Hrun. now destruct (alive n).
Qed.

Lemma stream_on_unreadable_store_starts_nothing_witness :
  let n := idle_node 100
             (fst (init (at_time 1700000000000)
                     (fresh_process (disk_with (JArr [JArr [JStr "a"; JNull]]))))) in
  step (Connect 1%nat) n = n.
Proof.
  cbv zeta.
  apply (stream_on_unreadable_store_starts_nothing 1%nat _ TypeError).
  reflexivity.
Defined.

(** X18.  The stream is fed by the timer alone: a submission writes
    nothing on an open connection, and the connection's next tick
    carries the totals of the store as the submission left it. *)
Theorem next_tick_reports_the_latest_submission (c : conn) (n : Node)
    (fault : bool) (req_body : value) :
  alive n = true ->
  readable (userData (world n)) = true ->
  ticking c n = [{| owner := c; period := 5000; due := clock n + 1 |}] ->
  let posted := step (Post fault req_body) n in
  heard c posted = heard c n
  /\ heard c (step Elapse posted)
     = heard c n
       ++ [{| to := c; sent_at := clock n + 1;
              data := totals_json (userData (world posted)) |}]
  /\ ticking c (step Elapse posted)
     = [{| owner := c; period := 5000; due := clock n + 1 + 5000 |}].
Proof.
  intros Ha Hr Ht posted.
  assert (posted
          = set_world
              (fst (post_userlist
                      {| Date_now := clock n; fs_fault := fault; env_PORT := None |}
                      req_body (world n))) n) as Hposted
    by (unfold posted, step; now rewrite Ha).
  assert (readable (userData (world posted)) = true) as Hr'
    by (rewrite Hposted; cbn [set_world world]; now apply post_userlist_readable).
  split; [rewrite Hposted; reflexivity|].
  unfold step at 1 2. replace (alive posted) with true
    by (rewrite Hposted; cbn [set_world alive]; now rewrite Ha).
  rewrite elapse_readable by exact Hr'.
  unfold heard, ticking in *. cbn [wire intervals].
  rewrite filter_owner_looked_at, filter_app, filter_to_chunks.
  replace (intervals posted) with (intervals n) by (rewrite Hposted; reflexivity).
  replace (wire posted) with (wire n) by (rewrite Hposted; reflexivity).
  replace (clock posted) with (clock n) by (rewrite Hposted; reflexivity).
  rewrite Ht. cbn [filter map due owner period]. unfold looked_at. cbn [due owner period].
  rewrite Z.leb_refl. split; reflexivity.
Qed.

Lemma next_tick_reports_the_latest_submission_witness :
  let n := run (repeat Elapse 4999) (step (Connect 1%nat) (idle_node 100 two_users)) in
  heard 1%nat (step Elapse (step (Post false (report "c" (Fin 4) [])) n))
  = heard 1%nat n
    ++ [{| to := 1%nat; sent_at := 5100;
           data := JObj [("current", JNum (Fin 12)); ("total", JNum (Fin 12))] |}].
Proof.
  cbv zeta.
  destruct (next_tick_reports_the_latest_submission 1%nat
              (run (repeat Elapse 4999) (step (Connect 1%nat) (idle_node 100 two_users)))
              false (report "c" (Fin 4) []))
    as (_ & Hnext & _).
  - vm_compute. reflexivity.
  - vm_compute. reflexivity.
  - vm_compute. reflexivity.
  - rewrite Hnext. vm_compute. reflexivity.
Defined.
